(** * The OpenPulse Cython code generator (openpulse/solver/codegen.py)

    A shallow embedding of [OPCodegen] and of the module level functions
    [func_header], [cython_preamble] and [cython_checks], followed by the
    properties of the emitted kernel source.

    Python strings are [string]; a [dict] read in insertion order is an
    association list; the lines accumulated in [self.code] are a
    [list string]; the files written by [generate] live in a finite map
    from file names to contents; methods run in a state monad whose
    exceptions keep the state reached so far, as Python's do. *)

From Stdlib Require Import ZArith Ascii DecimalString DecimalNat Lia.
From stdpp Require Import base list strings gmap.

(** ** Python primitives used by the generator *)

Module Py.

(** The line feed, written [\n] in the source. *)
Definition nl : string := String "010"%char "".

(** The backslash. *)
Definition backslash_char : ascii := "092"%char.
Definition backslash : string := String backslash_char "".

(** The double quote, which the preamble contains. *)
Definition dquote : string := String "034"%char "".

(** ["%d" % k] and [str.format(i=k)] for the index of an enumeration. *)
Definition str_of_nat (k : nat) : string :=
  NilEmpty.string_of_uint (Nat.to_uint k).

(** ["%s" % z] for an [int]. *)
Definition str_of_Z (z : Z) : string :=
  NilEmpty.string_of_int (Z.to_int z).

(** [s * n] for a string [s] and an [int] [n]: empty when [n <= 0]. *)
Fixpoint str_repeat (s : string) (n : nat) : string :=
  match n with
  | O => ""
  | S n => s +:+ str_repeat s n
  end.
Definition str_mul (s : string) (n : Z) : string := str_repeat s (Z.to_nat n).

(** The text [writelines] sends to a file: the lines, one after another. *)
Fixpoint join_lines (ls : list string) : string :=
  match ls with
  | [] => ""
  | l :: ls => l +:+ join_lines ls
  end.

(** The values found at [term[1]]: [None] or a string. *)
Inductive value := PyNone | PyStr (s : string).

(** [bool(v)]: [None] and the empty string are false. *)
Definition truthy (v : value) : bool :=
  match v with
  | PyNone => false
  | PyStr s => negb (String.eqb s "")
  end.

(** ["%s" % v]. *)
Definition str_of (v : value) : string :=
  match v with
  | PyNone => "None"
  | PyStr s => s
  end.

(** The two sequence types a term can be; [isinstance(term, list)]. *)
Inductive seqtype := PyList | PyTuple.

Definition isinstance_list (k : seqtype) : bool :=
  match k with PyList => true | PyTuple => false end.

(** [s.replace(old, new)]: the occurrences of [old] are found from left to
    right without overlap; for an empty [old], [new] goes in front of every
    character and at the end. [skip] counts the characters of a found
    occurrence that are still to be passed over. *)
Fixpoint replace_go (old new : string) (skip : nat) (s : string) : string :=
  match s with
  | "" => ""
  | String c r =>
      match skip with
      | S k => replace_go old new k r
      | O =>
          if String.prefix old s
          then new +:+ replace_go old new (String.length old - 1) r
          else String c (replace_go old new 0 r)
      end
  end.

Fixpoint replace_empty (new : string) (s : string) : string :=
  match s with
  | "" => ""
  | String c r => String c (new +:+ replace_empty new r)
  end.

Definition str_replace (s old new : string) : string :=
  match old with
  | "" => new +:+ replace_empty new s
  | _ => replace_go old new 0 s
  end.

(** [int(s)] for a string of decimal digits; [None] where Python raises
    [ValueError]: on the empty string and on any other character. *)
Fixpoint py_int_acc (s : string) (acc : nat) : option nat :=
  match s with
  | "" => Some acc
  | String a r =>
      match Ascii.is_nat a with
      | Some d => py_int_acc r (10 * acc + d)
      | None => None
      end
  end.
Definition py_int (s : string) : option nat :=
  match s with
  | "" => None
  | _ => py_int_acc s 0
  end.

End Py.
Import Py.

(** ** The model description handed to the generator *)

(** One entry of [op_system.system]. The generator reads [term[1]] and asks
    whether the entry is a [list]; [term[0]], the operator, is never read. *)
Record HamiltonianTerm := {
  term_type : seqtype;
  term_1 : value
}.

(** [op_system]: [system] is the term list, [channels] the dict from channel
    name to channel index in insertion order, [vars] the keys of the dict of
    free variables in insertion order (its values are never read). The
    sample step [dt] is copied by [__init__] and not used afterwards. *)
Record OpSystem := {
  system : list HamiltonianTerm;
  channels : list (string * Z);
  vars : list string
}.

(** ** The generator object and the process state *)

(** The attributes of an [OPCodegen] instance. [_file] holds the name of the
    file last opened by [file]. *)
Record OPCodegen := {
  op_system : OpSystem;
  num_ham_terms : nat;
  _file : option string;
  code : list string;
  level : Z;
  spline_count : Z
}.

(** What outlives an instance: the files on disk, the counter
    [op_set.CGEN_NUM], and the names the operating system does not open for
    writing: a directory, a name in a directory that does not exist, a name
    that is too long, a place without write permission. Creating or
    truncating a file changes none of these. *)
Record process := {
  fs : gmap string string;
  CGEN_NUM : Z;
  refused : string → bool
}.

Record state := {
  self : OPCodegen;
  proc : process
}.

(** [OPCodegen.__init__]. It also appends the working directory to
    [sys.path], which no method reads. *)
Definition __init__ (op : OpSystem) : OPCodegen :=
  {| op_system := op;
     num_ham_terms := length (system op);
     _file := None;
     code := [];
     level := 0;
     spline_count := 0 |}.

(** ** Methods as state transformers that may raise *)

(** The exceptions the methods raise. [OSError] stands for the subclass the
    operating system's error selects when [open] fails:
    [FileNotFoundError] for the empty name and for a missing directory,
    [IsADirectoryError], [NotADirectoryError], [PermissionError]. *)
Inductive exn :=
  | SyntaxError (msg : string)
  | AttributeError (msg : string)
  | ValueError (msg : string)
  | OSError (filename : string).

Inductive outcome (A : Type) :=
  | Return (a : A)
  | Raise (e : exn).
Arguments Return {A} a.
Arguments Raise {A} e.

Definition M (A : Type) : Type := state → outcome A * state.

Global Instance M_ret : MRet M := λ A a s, (Return a, s).
Global Instance M_bind : MBind M := λ A B f m s,
  match m s with
  | (Return a, s') => f a s'
  | (Raise e, s') => (Raise e, s')
  end.

Definition raise {A} (e : exn) : M A := λ s, (Raise e, s).
Definition get_self : M OPCodegen := λ s, (Return (self s), s).
Definition set_self (c : OPCodegen) : M unit :=
  λ s, (Return (), {| self := c; proc := proc s |}).
Definition get_proc : M process := λ s, (Return (proc s), s).
Definition set_proc (p : process) : M unit :=
  λ s, (Return (), {| self := self s; proc := p |}).

(** [for x in l: body(x)]. *)
Fixpoint for_each {A} (body : A → M unit) (l : list A) : M unit :=
  match l with
  | [] => mret ()
  | x :: l => body x ;; for_each body l
  end.

Definition set_code (c : OPCodegen) (ls : list string) : OPCodegen :=
  {| op_system := op_system c; num_ham_terms := num_ham_terms c;
     _file := _file c; code := ls; level := level c;
     spline_count := spline_count c |}.
Definition set_level (c : OPCodegen) (n : Z) : OPCodegen :=
  {| op_system := op_system c; num_ham_terms := num_ham_terms c;
     _file := _file c; code := code c; level := n;
     spline_count := spline_count c |}.
Definition set_file (c : OPCodegen) (f : option string) : OPCodegen :=
  {| op_system := op_system c; num_ham_terms := num_ham_terms c;
     _file := f; code := code c; level := level c;
     spline_count := spline_count c |}.

(** [OPCodegen.write]. *)
Definition write (string : string) : M unit :=
  c ← get_self;
  set_self (set_code c (code c ++ [str_mul "    " (level c) +:+ string +:+ nl])).

(** [OPCodegen.indent]. *)
Definition indent : M unit :=
  c ← get_self;
  set_self (set_level c (level c + 1)).

(** [OPCodegen.dedent]. *)
Definition dedent : M unit :=
  c ← get_self;
  if (level c =? 0)%Z then raise (SyntaxError "Error in code generator")
  else set_self (set_level c (level c - 1)).

(** A name with a NUL character in it. *)
Fixpoint has_nul (s : string) : bool :=
  match s with
  | EmptyString => false
  | String a s => Ascii.eqb a "000" || has_nul s
  end.

(** What [open(filename, "w")] raises, if anything: [ValueError] for a name
    with a NUL character, before the operating system is asked;
    [FileNotFoundError] for the empty name; and the operating system's error
    for a name it refuses. *)
Definition open_error (p : process) (filename : string) : option exn :=
  if has_nul filename then Some (ValueError "embedded null byte")
  else if String.eqb filename "" || refused p filename then Some (OSError filename)
  else None.

(** [OPCodegen.file]: [open(filename, "w")] creates or truncates the file,
    or raises before [self._file] is assigned. *)
Definition file (filename : string) : M unit :=
  c ← get_self;
  p ← get_proc;
  match open_error p filename with
  | Some e => raise e
  | None =>
      set_proc {| fs := <[filename := ""]> (fs p); CGEN_NUM := CGEN_NUM p;
                  refused := refused p |} ;;
      set_self (set_file c (Some filename))
  end.

(** [self._file.writelines(lines)]: the lines go after what the open file
    holds. *)
Definition writelines (lines : list string) : M unit :=
  c ← get_self;
  p ← get_proc;
  match _file c with
  | Some f =>
      set_proc {| fs := <[f := default "" (fs p !! f) +:+ join_lines lines]> (fs p);
                  CGEN_NUM := CGEN_NUM p; refused := refused p |}
  | None => raise (AttributeError "'NoneType' object has no attribute 'writelines'")
  end.

(** [self._file.close()]; the text is already in [fs]. *)
Definition close : M unit := mret ().

(** [enumerate(l)]. *)
Definition enumerate {A} (l : list A) : list (nat * A) := imap pair l.

(** A block of lines that each end in a line feed, as one string. *)
Definition unlines (ls : list string) : string :=
  join_lines ((λ l, l +:+ nl) <$> ls).

(** ** The build script (openpulse/setup.py) *)

(** What the script reads from the interpreter and the system:
    [sys.platform], the first two entries of [sys.version_info],
    [os.environ.get('MSYSTEM')] and [np.get_include()]. *)
Record build_env := {
  sys_platform : string;
  sys_version_info : nat * nat;
  environ_MSYSTEM : option string;
  np_get_include : string
}.

Definition cython_op_exts : list string :=
  [ "channel_value"; "measure"; "memory"; "utils" ].

Definition cython_qutip_exts : list string :=
  [ "graph_utils"; "math"; "ptrace"; "sparse_utils";
    "spconvert"; "spmatfuncs"; "spmath" ].

(** The condition of the first branch: on Windows, with Python 3.5 or later,
    outside MSYS2. [and] evaluates from left to right and stops at the first
    false operand. *)
Definition visual_studio_compile (env : build_env) : option bool :=
  if String.eqb (sys_platform env) "win32" then
    n ← py_int (str_of_nat (sys_version_info env).1 +:+
                str_of_nat (sys_version_info env).2);
    Some ((35 <=? n) && bool_decide (environ_MSYSTEM env = None))
  else Some false.

(** [_compiler_flags] and [_link_flags] once the branches are through. *)
Definition build_flags (env : build_env) : option (list string * list string) :=
  let _link_flags := [] in
  vs ← visual_studio_compile env;
  if vs : bool then
    let _compiler_flags := [] in
    Some (_compiler_flags, _link_flags)
  else
    let _compiler_flags := [ "-O2"; "-funroll-loops" ] in
    if String.eqb (sys_platform env) "darwin" then
      Some (_compiler_flags ++ [ "-mmacosx-version-min=10.9" ],
            _link_flags ++ [ "-mmacosx-version-min=10.9" ])
    else Some (_compiler_flags, _link_flags).

(** The arguments given to [Extension]. *)
Record Extension := {
  ext_name : string;
  sources : list string;
  include_dirs : list string;
  extra_compile_args : list string;
  extra_link_args : list string;
  language : string
}.

(** [EXT_MODULES] after the two loops. *)
Definition EXT_MODULES (env : build_env) : option (list Extension) :=
  flags ← build_flags env;
  let EXT_MODULES := [] in
  let EXT_MODULES :=
    fold_left (λ EXT_MODULES ext,
      let _mod := {| ext_name := "cy." +:+ ext;
                     sources := [ "cy/" +:+ ext +:+ ".pyx" ];
                     include_dirs := [ np_get_include env ];
                     extra_compile_args := flags.1;
                     extra_link_args := flags.2;
                     language := "c++" |} in
      EXT_MODULES ++ [_mod]) cython_op_exts EXT_MODULES in
  let EXT_MODULES :=
    fold_left (λ EXT_MODULES ext,
      let _mod := {| ext_name := "qutip_lite.cy." +:+ ext;
                     sources := [ "qutip_lite/cy/" +:+ ext +:+ ".pyx" ];
                     include_dirs := [ np_get_include env ];
                     extra_compile_args := flags.1;
                     extra_link_args := flags.2;
                     language := "c++" |} in
      EXT_MODULES ++ [_mod]) cython_qutip_exts EXT_MODULES in
  Some EXT_MODULES.

(** ** The code generator *)

Section codegen.

(** The directory of the installed QuTiP Cython sources, computed at import
    time from [qt.cy.__file__]. *)
Variable _cython_path : string.

Definition _include_string : string :=
  "'" +:+ _cython_path +:+ "complex_math.pxi'".

(** [cython_preamble]: one string of many lines. *)
Definition cython_preamble : list string :=
  [ unlines
      [ "#!python";
        "#cython: language_level=3";
        "# This code is part of Qiskit.";
        "#";
        "# (C) Copyright IBM 2019.";
        "#";
        "# This code is licensed under the Apache License, Version 2.0. You may";
        "# obtain a copy of this license in the LICENSE.txt file in the root directory";
        "# of this source tree or at http://www.apache.org/licenses/LICENSE-2.0.";
        "#";
        "# Any modifications or derivative works of this code must retain this";
        "# copyright notice, and modified files need to carry a notice indicating";
        "# that they have been altered from the originals.";
        "";
        "import numpy as np";
        "cimport numpy as np";
        "cimport cython";
        "np.import_array()";
        "cdef extern from " +:+ dquote +:+ "numpy/arrayobject.h" +:+ dquote +:+ " nogil:";
        "    void PyDataMem_NEW_ZEROED(size_t size, size_t elsize)";
        "    void PyArray_ENABLEFLAGS(np.ndarray arr, int flags)";
        "";
        "from qutip.cy.spmatfuncs cimport spmvpy";
        "from qutip.cy.math cimport erf";
        "from libc.math cimport pi";
        "";
        "from openpulse.cython.channel_value cimport channel_value";
        "" ]
    +:+ "include " +:+ _include_string +:+ nl ].

(** [cython_checks]. *)
Definition cython_checks : list string :=
  [ "@cython.cdivision(True)" +:+ nl +:+
    "@cython.boundscheck(False)" +:+ nl +:+
    "@cython.wraparound(False)" ].

(** [OPCodegen.ODE_func_header]. *)
Definition ODE_func_header (c : OPCodegen) : list string :=
  let func_name := "def cy_td_ode_rhs(" in
  let input_vars := (nl +:+ "        double t") +:+
                    ("," +:+ nl +:+ "        complex[::1] vec") in
  let input_vars :=
    fold_left (λ input_vars k,
      input_vars +:+ (("," +:+ nl +:+ "        ") +:+
                      ("complex[::1] data" +:+ str_of_nat k +:+ ", ") +:+
                      ("int[::1] idx" +:+ str_of_nat k +:+ ", ") +:+
                      ("int[::1] ptr" +:+ str_of_nat k)))
      (seq 0 (num_ham_terms c)) input_vars in
  let input_vars := input_vars +:+ (("," +:+ nl +:+ "        ") +:+ "complex[::1] pulse_array") in
  let input_vars := input_vars +:+ (("," +:+ nl +:+ "        ") +:+ "unsigned int[::1] pulse_indices") in
  let input_vars :=
    fold_left (λ input_vars key,
      (input_vars +:+ (("," +:+ nl +:+ "        ") +:+ ("double[::1] " +:+ key +:+ "_pulses")))
                  +:+ (("," +:+ nl +:+ "        ") +:+ ("double[::1] " +:+ key +:+ "_fc")))
      (channels (op_system c)).*1 input_vars in
  let input_vars :=
    fold_left (λ input_vars key,
      input_vars +:+ (("," +:+ nl +:+ "        ") +:+ ("complex " +:+ key)))
      (vars (op_system c)) input_vars in
  let input_vars := input_vars +:+ (("," +:+ nl +:+ "        ") +:+ "unsigned char[::1] register") in
  let func_end := "):" in
  [func_name +:+ input_vars +:+ func_end].

(** [OPCodegen.channels]. *)
Definition channels_ (c : OPCodegen) : list string :=
  let channel_lines := [""] in
  let channel_lines := channel_lines ++ ["# Compute complex channel values at time `t`"] in
  let channel_lines :=
    fold_left (λ channel_lines '(chan, idx),
      let chan_str :=
        (chan +:+ " = channel_value(t, " +:+ str_of_Z idx +:+ ", ") +:+
        (chan +:+ "_pulses,  pulse_array, pulse_indices, ") +:+
        (chan +:+ "_fc, register)") in
      channel_lines ++ [chan_str])
      (channels (op_system c)) channel_lines in
  channel_lines ++ [""].

(** [OPCodegen.func_vars]. *)
Definition func_vars (c : OPCodegen) : list string :=
  let func_vars := [] in
  let func_vars := func_vars ++ ["# Eval the time-dependent terms and do SPMV."] in
  fold_left (λ func_vars '(idx, term),
    if isinstance_list (term_type term) || truthy (term_1 term) then
      let func_vars := func_vars ++ ["td" +:+ str_of_nat idx +:+ " = " +:+ str_of (term_1 term)] in
      let func_vars := func_vars ++ ["if abs(td" +:+ str_of_nat idx +:+ ") > 1e-15:"] in
      let spmv_str :=
        "spmvpy(&data" +:+ str_of_nat idx +:+ "[0], &idx" +:+ str_of_nat idx +:+
        "[0], &ptr" +:+ str_of_nat idx +:+ "[0], " +:+
        "&vec[0], td" +:+ str_of_nat idx +:+ ", &out[0], num_rows)" in
      func_vars ++ ["    " +:+ spmv_str]
    else
      let spmv_str :=
        "spmvpy(&data" +:+ str_of_nat idx +:+ "[0], &idx" +:+ str_of_nat idx +:+
        "[0], &ptr" +:+ str_of_nat idx +:+ "[0], " +:+
        "&vec[0], 1.0, &out[0], num_rows)" in
      func_vars ++ [spmv_str])
    (enumerate (system (op_system c))) func_vars.

(** [OPCodegen.func_end]. *)
Definition func_end (c : OPCodegen) : list string :=
  let end_str := [""] in
  let end_str := end_str ++ ["# Convert to NumPy array, grab ownership, and return."] in
  let end_str := end_str ++ ["cdef np.npy_intp dims = num_rows"] in
  let temp_str := "cdef np.ndarray[complex, ndim=1, mode='c'] arr_out = " in
  let temp_str := temp_str +:+ "np.PyArray_SimpleNewFromData(1, &dims, np.NPY_COMPLEX128, out)" in
  let end_str := end_str ++ [temp_str] in
  let end_str := end_str ++ ["PyArray_ENABLEFLAGS(arr_out, np.NPY_OWNDATA)"] in
  end_str ++ ["return arr_out"].

(** The module level [func_header]. *)
Definition func_header (op : OpSystem) : list string :=
  let func_vars :=
    [ ""; "cdef size_t row"; "cdef unsigned int num_rows = vec.shape[0]";
      "cdef double complex * " +:+
      "out = <complex *>PyDataMem_NEW_ZEROED(num_rows,sizeof(complex))" ] in
  let func_vars := func_vars ++ [""] in
  let func_vars :=
    fold_left (λ func_vars val, func_vars ++ ["cdef double complex " +:+ val])
      (channels op).*1 func_vars in
  fold_left (λ func_vars '(kk, item),
    if truthy (term_1 item) then
      func_vars ++ ["cdef double complex td" +:+ str_of_nat kk]
    else func_vars)
    (enumerate (system op)) func_vars.

(** [OPCodegen.generate]; [filename] defaults to ["rhs.pyx"]. *)
Definition generate (filename : option string) : M unit :=
  let filename := default "rhs.pyx" filename in
  for_each write cython_preamble ;;
  c ← get_self;
  for_each write (cython_checks ++ ODE_func_header c) ;;
  indent ;;
  c ← get_self;
  for_each write (func_header (op_system c)) ;;
  c ← get_self;
  for_each write (channels_ c) ;;
  c ← get_self;
  for_each write (func_vars c) ;;
  c ← get_self;
  for_each write (func_end c) ;;
  dedent ;;
  file filename ;;
  c ← get_self;
  writelines (code c) ;;
  close ;;
  p ← get_proc;
  set_proc {| fs := fs p; CGEN_NUM := CGEN_NUM p + 1; refused := refused p |}.

(** ** What the emitted lines are made of

    The pieces below name the texts that the loops above splice together,
    so that statements about the emitted source can point at them. *)

(** The line [write] appends for [text] at indentation [lv]. *)
Definition written (lv : Z) (text : string) : string :=
  str_mul "    " lv +:+ text +:+ nl.

(** A run of [n] blanks. *)
Definition blanks (n : nat) : string := str_repeat " " n.

(** The separator that puts an argument on a line of its own. *)
Definition nl8 : string := nl +:+ "        ".

(** The arguments of the kernel, each with the blank text that precedes
    it in the header. *)
Definition args_layout (op : OpSystem) : list (string * string) :=
  [ (nl8, "double t"); (nl8, "complex[::1] vec") ] ++
  (k ← seq 0 (length (system op));
     [ (nl8, "complex[::1] data" +:+ str_of_nat k);
       (" ", "int[::1] idx" +:+ str_of_nat k);
       (" ", "int[::1] ptr" +:+ str_of_nat k) ]) ++
  [ (nl8, "complex[::1] pulse_array");
    (nl8, "unsigned int[::1] pulse_indices") ] ++
  (key ← (channels op).*1;
     [ (nl8, "double[::1] " +:+ key +:+ "_pulses");
       (nl8, "double[::1] " +:+ key +:+ "_fc") ]) ++
  ((λ key, (nl8, "complex " +:+ key)) <$> vars op) ++
  [ (nl8, "unsigned char[::1] register") ].

(** The text of an argument list: the first entry, then every other entry
    after a comma. *)
Definition layout (l : list (string * string)) : string :=
  match l with
  | [] => ""
  | (ws, d) :: l => (ws +:+ d) +:+ join_lines ((λ e, "," +:+ e.1 +:+ e.2) <$> l)
  end.

(** The argument declarations of the kernel, in order. *)
Definition signature (op : OpSystem) : list string :=
  [ "double t"; "complex[::1] vec" ] ++
  (k ← seq 0 (length (system op));
     [ "complex[::1] data" +:+ str_of_nat k;
       "int[::1] idx" +:+ str_of_nat k;
       "int[::1] ptr" +:+ str_of_nat k ]) ++
  [ "complex[::1] pulse_array"; "unsigned int[::1] pulse_indices" ] ++
  (key ← (channels op).*1;
     [ "double[::1] " +:+ key +:+ "_pulses"; "double[::1] " +:+ key +:+ "_fc" ]) ++
  ((λ key, "complex " +:+ key) <$> vars op) ++
  [ "unsigned char[::1] register" ].

(** Reading a header back: the text between the first opening and the
    first closing parenthesis, cut at the commas, blanks in front of each
    piece dropped. *)
Fixpoint str_forallb (p : ascii → bool) (s : string) : bool :=
  match s with
  | "" => true
  | String a s => p a && str_forallb p s
  end.

Fixpoint split_on (c : ascii) (s : string) : list string :=
  match s with
  | "" => [""]
  | String a s =>
      if Ascii.eqb a c then "" :: split_on c s
      else match split_on c s with
           | [] => [String a ""]
           | w :: ws => String a w :: ws
           end
  end.

Fixpoint lstrip (s : string) : string :=
  match s with
  | "" => ""
  | String a r => if Ascii.is_space a then lstrip r else s
  end.

Fixpoint after_char (c : ascii) (s : string) : string :=
  match s with
  | "" => ""
  | String a s => if Ascii.eqb a c then s else after_char c s
  end.

Fixpoint before_char (c : ascii) (s : string) : string :=
  match s with
  | "" => ""
  | String a s => if Ascii.eqb a c then "" else String a (before_char c s)
  end.

Definition def_args (line : string) : list string :=
  lstrip <$> split_on "," (before_char ")" (after_char "(" line)).

(** Python identifiers over ASCII: letters, digits and the underscore, not
    starting with a digit. *)
Definition is_digit (a : ascii) : bool :=
  let n := nat_of_ascii a in (48 <=? n) && (n <=? 57).
Definition ident_char (a : ascii) : bool :=
  let n := nat_of_ascii a in
  ((65 <=? n) && (n <=? 90)) || ((97 <=? n) && (n <=? 122)) ||
  is_digit a || (n =? 95).
Definition identifier (s : string) : bool :=
  match s with
  | "" => false
  | String a _ => negb (is_digit a) && str_forallb ident_char s
  end.

Definition starts_with_blank (s : string) : bool :=
  match s with
  | String a _ => Ascii.eqb a " "
  | "" => false
  end.

(** An entry of the argument list that can be read back: neither a comma nor
    a closing parenthesis in it, and its declaration is what is left when the
    blanks in front are dropped. *)
Definition plain_char (a : ascii) : bool :=
  negb (Ascii.eqb a ",") && negb (Ascii.eqb a ")").
Definition readable (e : string * string) : Prop :=
  str_forallb plain_char (e.1 +:+ e.2) = true ∧ lstrip (e.1 +:+ e.2) = e.2.

(** The accumulation call for term [i] with coefficient text [coeff]. *)
Definition spmv_call (i : nat) (coeff : string) : string :=
  "spmvpy(&data" +:+ str_of_nat i +:+ "[0], &idx" +:+ str_of_nat i +:+
  "[0], &ptr" +:+ str_of_nat i +:+ "[0], " +:+
  "&vec[0], " +:+ coeff +:+ ", &out[0], num_rows)".

(** The test [func_vars] makes on a term, and the test [func_header]
    makes. *)
Definition guarded (term : HamiltonianTerm) : bool :=
  isinstance_list (term_type term) || truthy (term_1 term).
Definition declared (term : HamiltonianTerm) : bool :=
  truthy (term_1 term).

(** The lines [func_vars] emits for term [idx]. *)
Definition term_lines (idx : nat) (term : HamiltonianTerm) : list string :=
  if guarded term then
    [ "td" +:+ str_of_nat idx +:+ " = " +:+ str_of (term_1 term);
      "if abs(td" +:+ str_of_nat idx +:+ ") > 1e-15:";
      "    " +:+ spmv_call idx ("td" +:+ str_of_nat idx) ]
  else [ spmv_call idx "1.0" ].

(** The accumulation statement among them. *)
Definition accum_stmt (idx : nat) (term : HamiltonianTerm) : string :=
  if guarded term then "    " +:+ spmv_call idx ("td" +:+ str_of_nat idx)
  else spmv_call idx "1.0".

(** The statement [channels] emits for one channel. *)
Definition channel_stmt (e : string * Z) : string :=
  e.1 +:+ " = channel_value(t, " +:+ str_of_Z e.2 +:+ ", " +:+
  e.1 +:+ "_pulses,  pulse_array, pulse_indices, " +:+
  e.1 +:+ "_fc, register)".

(** The lines one call of [generate] appends to [self.code]. *)
Definition emitted (c : OPCodegen) : list string :=
  (written (level c) <$> cython_preamble ++ cython_checks ++ ODE_func_header c) ++
  (written (level c + 1) <$>
     func_header (op_system c) ++ channels_ c ++ func_vars c ++ func_end c).

(** The text of the file a new instance for [op] writes. *)
Definition artifact (op : OpSystem) : string :=
  join_lines (emitted (__init__ op)).

(** A line that opens a kernel definition. *)
Definition is_kernel_def (line : string) : bool :=
  String.prefix "def cy_td_ode_rhs(" line.

(** ** Sequences of method calls on one instance *)

Inductive call :=
  | Write (string : string)
  | Indent
  | Dedent
  | File (filename : string)
  | Generate (filename : option string).

Definition method (m : call) : M unit :=
  match m with
  | Write string => write string
  | Indent => indent
  | Dedent => dedent
  | File filename => file filename
  | Generate filename => generate filename
  end.

(** The calls are made one after another; a call that raises leaves the
    state it reached, and the caller goes on. *)
Fixpoint run (ms : list call) (s : state) : state :=
  match ms with
  | [] => s
  | m :: ms => run ms (method m s).2
  end.

(** The state of a new instance for [op] in process [p]. *)
Definition new (op : OpSystem) (p : process) : state :=
  {| self := __init__ op; proc := p |}.

(** ** Models used as test inputs *)

(** A character that occurs in a name. *)
Fixpoint has_char (a : ascii) (s : string) : bool :=
  match s with
  | EmptyString => false
  | String b s => Ascii.eqb a b || has_char a s
  end.

(** A process that starts in an empty, writable working directory without
    subdirectories: no file yet, no generation yet, and only the directory
    itself, its parent and names with a path separator are refused. *)
Definition empty_process : process :=
  {| fs := ∅; CGEN_NUM := 0;
     refused := λ f, String.eqb f "." || String.eqb f ".." || has_char "/" f |}.

(** Where a system wide installation keeps the QuTiP Cython sources. *)
Definition site_cython_path : string := "/usr/lib/python3/site-packages/qutip/cy/".

(** A driven qubit: one time dependent term, one constant term. *)
Definition driven_qubit : OpSystem :=
  {| system := [ {| term_type := PyTuple; term_1 := PyStr "omega*D0" |};
                 {| term_type := PyTuple; term_1 := PyNone |} ];
     channels := [ ("D0", 0%Z); ("U0", 1%Z) ];
     vars := [ "omega" ] |}.

(** A model without terms. *)
Definition no_terms : OpSystem :=
  {| system := []; channels := [ ("D0", 0%Z) ]; vars := [ "omega" ] |}.

(** A term given as a list whose second entry is [None]. *)
Definition list_term_without_tag : OpSystem :=
  {| system := [ {| term_type := PyList; term_1 := PyNone |} ];
     channels := []; vars := [] |}.

(** A channel called [vec], and a free variable of the same name. *)
Definition channel_named_vec : OpSystem :=
  {| system := [ {| term_type := PyTuple; term_1 := PyStr "vec" |} ];
     channels := [ ("vec", 0%Z) ];
     vars := [ "vec" ] |}.


(** ** The module level path, and tests on calls and lines *)

(** The two replacements that turn [os.path.abspath(qt.cy.__file__)] into
    the module level [_cython_path]. *)
Definition cython_path_of (abspath_file : string) : string :=
  let _cython_path := str_replace abspath_file "__init__.py" "" in
  str_replace _cython_path backslash "/".

(** A line that holds an accumulation call, plain or under a test. *)
Definition is_spmv_line (line : string) : bool :=
  String.prefix "spmvpy(" line || String.prefix "    spmvpy(" line.

(** A call of [generate] whose output file can be opened in [p]. *)
Definition generates (p : process) (m : call) : bool :=
  match m with
  | Generate filename =>
      match open_error p (default "rhs.pyx" filename) with
      | None => true
      | Some _ => false
      end
  | _ => false
  end.

(** ** Strings and loops *)

Lemma str_app_assoc (a b c : string) : (a +:+ b) +:+ c = a +:+ b +:+ c.
Proof.
  induction a as [|x a IH]; [done|].
  change (String x ((a +:+ b) +:+ c) = String x (a +:+ b +:+ c)). by rewrite IH.
Qed.

Lemma str_app_nil_r (a : string) : a +:+ "" = a.
Proof.
  induction a as [|x a IH]; [done|].
  change (String x (a +:+ "") = String x a). by rewrite IH.
Qed.

Lemma join_lines_app (a b : list string) :
  join_lines (a ++ b) = join_lines a +:+ join_lines b.
Proof.
  induction a as [|x a IH]; [done|].
  simpl. by rewrite IH, str_app_assoc.
Qed.

(** A loop that appends to a list is a bind over the iterated list. *)
Lemma fold_left_append {A B} (g : list B → A → list B) (f : A → list B) l init :
  (∀ acc x, g acc x = acc ++ f x) →
  fold_left g l init = init ++ (l ≫= f).
Proof.
  intros Hg. revert init.
  induction l as [|x l IH]; intros init; cbn [fold_left].
  - by rewrite app_nil_r.
  - rewrite IH, Hg, bind_cons. by rewrite <-(assoc_L (++)).
Qed.

(** A loop that appends to a string joins the appended pieces. *)
Lemma fold_left_str_append {A} (g : string → A → string) (f : A → string) l init :
  (∀ acc x, g acc x = acc +:+ f x) →
  fold_left g l init = init +:+ join_lines (f <$> l).
Proof.
  intros Hg. revert init.
  induction l as [|x l IH]; intros init; cbn [fold_left fmap list_fmap join_lines].
  - by rewrite str_app_nil_r.
  - by rewrite IH, Hg, str_app_assoc.
Qed.

Lemma bind_concat {A B} (f : A → list B) (l : list A) :
  l ≫= f = concat (f <$> l).
Proof. induction l as [|x l IH]; [done|]. by rewrite bind_cons, fmap_cons, IH. Qed.

Lemma enumerate_bind {A B} (f : nat → A → list B) (l : list A) :
  enumerate l ≫= (λ e, f e.1 e.2) = concat (imap f l).
Proof.
  unfold enumerate. rewrite bind_concat, fmap_imap. done.
Qed.

(** ** The loops of the generator in closed form *)

Lemma func_vars_eq (c : OPCodegen) :
  func_vars c =
  "# Eval the time-dependent terms and do SPMV." ::
  concat (imap term_lines (system (op_system c))).
Proof.
  unfold func_vars.
  rewrite (fold_left_append _ (λ e, term_lines e.1 e.2)).
  - by rewrite enumerate_bind.
  - intros acc [idx term]. unfold term_lines, guarded, spmv_call. cbn [fst snd].
    destruct (isinstance_list (term_type term) || truthy (term_1 term)).
    + by rewrite <-!(assoc_L (++)).
    + done.
Qed.

Lemma func_header_eq (op : OpSystem) :
  func_header op =
  [ ""; "cdef size_t row"; "cdef unsigned int num_rows = vec.shape[0]";
    "cdef double complex * out = <complex *>PyDataMem_NEW_ZEROED(num_rows,sizeof(complex))";
    "" ] ++
  ((λ val, "cdef double complex " +:+ val) <$> (channels op).*1) ++
  concat (imap (λ kk item,
    if declared item then ["cdef double complex td" +:+ str_of_nat kk] else [])
    (system op)).
Proof.
  unfold func_header.
  rewrite (fold_left_append _ (λ e,
    if declared e.2 then ["cdef double complex td" +:+ str_of_nat e.1] else [])).
  - rewrite (fold_left_append _ (λ val, ["cdef double complex " +:+ val])) by done.
    rewrite (enumerate_bind (λ kk item,
      if declared item then ["cdef double complex td" +:+ str_of_nat kk] else [])).
    rewrite <-(assoc_L (++)). do 2 f_equal.
  - intros acc [kk item]. unfold declared. cbn [fst snd].
    destruct (truthy (term_1 item)); [done|]. by rewrite app_nil_r.
Qed.

Lemma channels_eq (c : OPCodegen) :
  channels_ c =
  [ ""; "# Compute complex channel values at time `t`" ] ++
  (channel_stmt <$> channels (op_system c)) ++ [ "" ].
Proof.
  unfold channels_.
  rewrite (fold_left_append _ (λ e, [channel_stmt e])).
  - rewrite <-(assoc_L (++)). do 2 f_equal.
  - intros acc [chan idx]. unfold channel_stmt. cbn [fst snd].
    by rewrite !str_app_assoc.
Qed.

Lemma join_fmap_bind {A B} (F : B → string) (g : A → list B) (h : A → string) l :
  (∀ x, join_lines (F <$> g x) = h x) →
  join_lines (F <$> (l ≫= g)) = join_lines (h <$> l).
Proof.
  intros Hh. induction l as [|x l IH]; [done|].
  rewrite bind_cons, fmap_app, join_lines_app, IH, Hh. done.
Qed.

Lemma ODE_func_header_eq (op : OpSystem) :
  ODE_func_header (__init__ op) =
  [ "def cy_td_ode_rhs(" +:+ layout (args_layout op) +:+ "):" ].
Proof.
  unfold ODE_func_header. cbn [num_ham_terms op_system __init__].
  rewrite (fold_left_str_append _ (λ key, ("," +:+ nl +:+ "        ") +:+ "complex " +:+ key))
    by done.
  rewrite (fold_left_str_append _ (λ key,
    (("," +:+ nl +:+ "        ") +:+ "double[::1] " +:+ key +:+ "_pulses") +:+
    (("," +:+ nl +:+ "        ") +:+ "double[::1] " +:+ key +:+ "_fc")))
    by (intros; by rewrite !str_app_assoc).
  rewrite (fold_left_str_append _ (λ k,
    ("," +:+ nl +:+ "        ") +:+ ("complex[::1] data" +:+ str_of_nat k +:+ ", ") +:+
    ("int[::1] idx" +:+ str_of_nat k +:+ ", ") +:+ "int[::1] ptr" +:+ str_of_nat k))
    by done.
  unfold args_layout, layout. cbn [app].
  rewrite fmap_cons, !fmap_app. cbn [join_lines]. rewrite !join_lines_app.
  rewrite (join_fmap_bind _ _ (λ k,
    ("," +:+ nl +:+ "        ") +:+ ("complex[::1] data" +:+ str_of_nat k +:+ ", ") +:+
    ("int[::1] idx" +:+ str_of_nat k +:+ ", ") +:+ "int[::1] ptr" +:+ str_of_nat k)).
  2:{ intros k. cbn [fmap list_fmap join_lines fst snd]. unfold nl8.
      by rewrite !str_app_assoc, str_app_nil_r. }
  rewrite !fmap_cons. cbn [join_lines]. rewrite !fmap_app, !join_lines_app.
  rewrite (join_fmap_bind _ _ (λ key,
    (("," +:+ nl +:+ "        ") +:+ "double[::1] " +:+ key +:+ "_pulses") +:+
    (("," +:+ nl +:+ "        ") +:+ "double[::1] " +:+ key +:+ "_fc"))).
  2:{ intros k. cbn [fmap list_fmap join_lines fst snd]. unfold nl8.
      by rewrite !str_app_assoc, str_app_nil_r. }
  rewrite <-(list_fmap_compose _ _ (vars op)).
  cbn [fmap list_fmap join_lines fst snd]. unfold nl8.
  rewrite !str_app_assoc, ?str_app_nil_r. reflexivity.
Qed.

(** ** Running the methods *)

Lemma bind_return {A B} (m : M A) (f : A → M B) s a s' :
  m s = (Return a, s') → (m ≫= f) s = f a s'.
Proof. intros Hm. unfold mbind, M_bind. by rewrite Hm. Qed.

Lemma write_spec text c p :
  write text {| self := c; proc := p |} =
  (Return (), {| self := set_code c (code c ++ [written (level c) text]); proc := p |}).
Proof. done. Qed.

Lemma for_each_write ls c p :
  for_each write ls {| self := c; proc := p |} =
  (Return (), {| self := set_code c (code c ++ (written (level c) <$> ls)); proc := p |}).
Proof.
  revert c. induction ls as [|l ls IH]; intros c; cbn [for_each].
  - unfold mret, M_ret. rewrite app_nil_r. by destruct c.
  - erewrite bind_return by apply write_spec. rewrite IH.
    cbn [set_code code level fmap list_fmap]. by rewrite <-(assoc_L (++)).
Qed.

Lemma indent_spec c p :
  indent {| self := c; proc := p |} =
  (Return (), {| self := set_level c (level c + 1); proc := p |}).
Proof. done. Qed.

Lemma dedent_zero c p :
  level c = 0%Z →
  dedent {| self := c; proc := p |} =
  (Raise (SyntaxError "Error in code generator"), {| self := c; proc := p |}).
Proof.
  intros Hc. unfold dedent, mbind, M_bind, get_self. cbn [self].
  by rewrite Hc.
Qed.

Lemma dedent_nonzero c p :
  level c ≠ 0%Z →
  dedent {| self := c; proc := p |} =
  (Return (), {| self := set_level c (level c - 1); proc := p |}).
Proof.
  intros Hc. unfold dedent, mbind, M_bind, get_self. cbn [self].
  apply Z.eqb_neq in Hc. by rewrite Hc.
Qed.

Lemma bind_raise {A B} (m : M A) (f : A → M B) s e s' :
  m s = (Raise e, s') → (m ≫= f) s = (Raise e, s').
Proof. intros Hm. unfold mbind, M_bind. by rewrite Hm. Qed.

Lemma file_spec filename c p :
  open_error p filename = None →
  file filename {| self := c; proc := p |} =
  (Return (), {| self := set_file c (Some filename);
                 proc := {| fs := <[filename := ""]> (fs p); CGEN_NUM := CGEN_NUM p;
                            refused := refused p |} |}).
Proof.
  intros Ho. unfold file, mbind, M_bind, get_self, get_proc. cbn [self proc].
  by rewrite Ho.
Qed.

Lemma file_fails filename c p e :
  open_error p filename = Some e →
  file filename {| self := c; proc := p |} = (Raise e, {| self := c; proc := p |}).
Proof.
  intros Ho. unfold file, mbind, M_bind, get_self, get_proc. cbn [self proc].
  by rewrite Ho.
Qed.

(** Whether a name can be opened depends on the names the operating system
    refuses, and on nothing else of the process. *)
Lemma open_error_refused p q filename :
  refused q = refused p → open_error q filename = open_error p filename.
Proof. intros H. unfold open_error. by rewrite H. Qed.

(** The calls of [generate] that write lines, up to the closing [dedent]. *)
Ltac generate_writes :=
  unfold generate;
  erewrite bind_return by apply for_each_write;
  erewrite bind_return by reflexivity; cbn [self];
  erewrite bind_return by apply for_each_write;
  erewrite bind_return by apply indent_spec;
  erewrite bind_return by reflexivity; cbn [self];
  erewrite bind_return by apply for_each_write;
  erewrite bind_return by reflexivity; cbn [self];
  erewrite bind_return by apply for_each_write;
  erewrite bind_return by reflexivity; cbn [self];
  erewrite bind_return by apply for_each_write;
  erewrite bind_return by reflexivity; cbn [self];
  erewrite bind_return by apply for_each_write.

(** The same, and the closing [dedent], from a level that is not [-1]. *)
Ltac generate_lines :=
  generate_writes;
  erewrite bind_return by (apply dedent_nonzero; cbn [level set_level set_code]; lia).

(** At level [-1] the call of [dedent] that closes the body finds level zero
    and raises: the lines have been appended, no file has been opened. *)
Lemma generate_minus_one filename c p :
  level c = (-1)%Z →
  generate filename {| self := c; proc := p |} =
  (Raise (SyntaxError "Error in code generator"),
   {| self := set_level (set_code c (code c ++ emitted c)) 0; proc := p |}).
Proof.
  intros Hc. generate_writes.
  erewrite bind_raise by (apply dedent_zero; cbn [level set_level set_code]; lia).
  cbn [set_file set_level set_code code level op_system num_ham_terms _file spline_count].
  unfold emitted. rewrite !fmap_app, <-!(assoc_L (++)).
  replace (level c + 1)%Z with 0%Z by lia.
  reflexivity.
Qed.

(** One call of [generate] from an instance whose level is not [-1], with a
    name that can be opened: the emitted lines go after the lines already
    held, and the whole list is written to the file. *)
Lemma generate_spec filename c p :
  level c ≠ (-1)%Z →
  open_error p (default "rhs.pyx" filename) = None →
  generate filename {| self := c; proc := p |} =
  (Return (),
   {| self := set_file (set_code c (code c ++ emitted c))
                       (Some (default "rhs.pyx" filename));
      proc := {| fs := <[default "rhs.pyx" filename :=
                           join_lines (code c ++ emitted c)]> (fs p);
                 CGEN_NUM := CGEN_NUM p + 1;
                 refused := refused p |} |}).
Proof.
  intros Hc Ho. generate_lines.
  erewrite bind_return by (by apply file_spec).
  erewrite bind_return by reflexivity. cbn [self].
  unfold writelines, close, get_self, get_proc, set_proc, mbind, M_bind, mret, M_ret.
  cbn [self proc fs CGEN_NUM refused _file set_file set_level set_code code level
       op_system num_ham_terms spline_count].
  rewrite lookup_insert_eq, insert_insert_eq. cbn [default].
  unfold emitted. rewrite !fmap_app, <-!(assoc_L (++)).
  replace (level c + 1 - 1)%Z with (level c) by lia.
  reflexivity.
Qed.

(** The same call with a name that cannot be opened: the lines are held by
    the instance already when [open] raises; no file is written and the
    counter stays. *)
Lemma generate_open_fails filename c p e :
  level c ≠ (-1)%Z →
  open_error p (default "rhs.pyx" filename) = Some e →
  generate filename {| self := c; proc := p |} =
  (Raise e, {| self := set_code c (code c ++ emitted c); proc := p |}).
Proof.
  intros Hc Ho. generate_lines.
  erewrite bind_raise by (by apply file_fails).
  cbn [set_file set_level set_code code level op_system num_ham_terms spline_count _file].
  unfold emitted. rewrite !fmap_app, <-!(assoc_L (++)).
  replace (level c + 1 - 1)%Z with (level c) by lia.
  reflexivity.
Qed.

(** What a call of [generate] leaves in [self.code], whether or not the file
    can be opened. *)
Lemma generate_code filename c p :
  level c ≠ (-1)%Z →
  code (self (generate filename {| self := c; proc := p |}).2) = code c ++ emitted c ∧
  level (self (generate filename {| self := c; proc := p |}).2) = level c ∧
  op_system (self (generate filename {| self := c; proc := p |}).2) = op_system c.
Proof.
  intros Hc. destruct (open_error p (default "rhs.pyx" filename)) as [e|] eqn:Ho.
  - by rewrite (generate_open_fails _ _ _ e).
  - by rewrite generate_spec.
Qed.

Lemma generate_appends filename c p :
  code (self (generate filename {| self := c; proc := p |}).2) = code c ++ emitted c ∧
  op_system (self (generate filename {| self := c; proc := p |}).2) = op_system c.
Proof.
  destruct (decide (level c = (-1)%Z)) as [Hc|Hc].
  - by rewrite generate_minus_one.
  - by destruct (generate_code filename c p Hc) as (? & ? & ?).
Qed.

(** No method changes what the operating system refuses. *)
Lemma generate_refused filename s :
  refused (proc (generate filename s).2) = refused (proc s).
Proof.
  destruct s as [c p].
  destruct (decide (level c = (-1)%Z)) as [Hc|Hc];
    [|destruct (open_error p (default "rhs.pyx" filename)) as [e|] eqn:Ho].
  - by rewrite generate_minus_one.
  - by rewrite (generate_open_fails _ _ _ e).
  - by rewrite generate_spec.
Qed.

(** ** The indentation level *)

Lemma str_repeat_blanks (n : nat) : str_repeat "    " n = blanks (4 * n).
Proof.
  induction n as [|n IH]; [done|].
  replace (4 * S n) with (S (S (S (S (4 * n))))) by lia.
  unfold blanks in *. cbn [str_repeat]. by rewrite IH.
Qed.

Lemma method_level (m : call) (s : state) :
  (0 ≤ level (self s))%Z → (0 ≤ level (self (method m s).2))%Z.
Proof.
  destruct s as [c p]. cbn [self]. intros Hc.
  destruct m as [text| | |filename|filename]; cbn [method].
  - by rewrite write_spec.
  - rewrite indent_spec. cbn [snd self set_level level]. lia.
  - destruct (decide (level c = 0%Z)) as [H0|H0].
    + by rewrite dedent_zero.
    + rewrite dedent_nonzero by done. cbn [snd self set_level level]. lia.
  - destruct (open_error p filename) as [e|] eqn:Ho.
    + by rewrite (file_fails _ _ _ e).
    + by rewrite file_spec.
  - destruct (generate_code filename c p) as (_ & -> & _); [lia|done].
Qed.

Lemma method_refused (m : call) (s : state) :
  refused (proc (method m s).2) = refused (proc s).
Proof.
  destruct m as [text| | |filename|filename]; cbn [method];
    [by destruct s|by destruct s| | |apply generate_refused].
  - destruct s as [c p]. destruct (decide (level c = 0%Z)) as [H0|H0].
    + by rewrite dedent_zero.
    + by rewrite dedent_nonzero.
  - destruct s as [c p]. destruct (open_error p filename) as [e|] eqn:Ho.
    + by rewrite (file_fails _ _ _ e).
    + by rewrite file_spec.
Qed.

Lemma run_refused (ms : list call) (s : state) :
  refused (proc (run ms s)) = refused (proc s).
Proof.
  revert s. induction ms as [|m ms IH]; intros s; cbn [run]; [done|].
  by rewrite IH, method_refused.
Qed.

Lemma run_level (ms : list call) (s : state) :
  (0 ≤ level (self s))%Z → (0 ≤ level (self (run ms s)))%Z.
Proof.
  revert s. induction ms as [|m ms IH]; intros s Hs; cbn [run]; [done|].
  by apply IH, method_level.
Qed.

(** C9. However the methods of a new instance are called, its indentation
    level is never negative; [dedent] at level zero raises and leaves the
    instance as it was; and the line [write] appends starts with four
    blanks for every level of indentation, followed by the text and a line
    feed. *)
Theorem level_never_negative :
  (∀ op p ms, (0 ≤ level (self (run ms (new op p))))%Z) ∧
  (∀ s, level (self s) = 0%Z →
        dedent s = (Raise (SyntaxError "Error in code generator"), s)) ∧
  (∀ s text,
     write text s =
     (Return (),
      {| self := set_code (self s)
                   (code (self s) ++
                    [blanks (4 * Z.to_nat (level (self s))) +:+ text +:+ nl]);
         proc := proc s |})).
Proof.
  split; [|split].
  - intros op p ms. by apply run_level.
  - intros [c p] Hs. by apply dedent_zero.
  - intros [c p] text. rewrite write_spec. unfold written, str_mul.
    by rewrite str_repeat_blanks.
Qed.

(** ** Calling [generate] again *)

Lemma filter_written_indented (lv : Z) (ls : list string) :
  (0 < lv)%Z → List.filter is_kernel_def (written lv <$> ls) = [].
Proof.
  intros Hlv. induction ls as [|l ls IH]; [done|].
  rewrite fmap_cons. cbn [List.filter]. rewrite IH.
  unfold written, str_mul.
  destruct (Z.to_nat lv) as [|n] eqn:Hn; [lia|]. done.
Qed.

Lemma kernel_defs_emitted (op : OpSystem) :
  List.filter is_kernel_def (emitted (__init__ op)) =
  written 0 <$> ODE_func_header (__init__ op).
Proof.
  unfold emitted. rewrite List.filter_app.
  rewrite (filter_written_indented (level (__init__ op) + 1))
    by (cbn [level __init__]; lia).
  rewrite app_nil_r, ODE_func_header_eq. done.
Qed.

(** C10. A second call of [generate] on the same instance keeps the lines
    of the first: when the two files can be opened, the file the second call
    writes holds the text of the first artifact twice over, with two kernel
    definitions, where the first call on the new instance wrote one. *)
Theorem generate_twice_accumulates (op : OpSystem) (f1 f2 : option string) (p : process) :
  open_error p (default "rhs.pyx" f1) = None →
  open_error p (default "rhs.pyx" f2) = None →
  let r1 := generate f1 (new op p) in
  let r2 := generate f2 r1.2 in
  r1.1 = Return () ∧ r2.1 = Return () ∧
  code (self r1.2) = emitted (__init__ op) ∧
  code (self r2.2) = emitted (__init__ op) ++ emitted (__init__ op) ∧
  fs (proc r1.2) !! default "rhs.pyx" f1 = Some (artifact op) ∧
  fs (proc r2.2) !! default "rhs.pyx" f2 = Some (artifact op +:+ artifact op) ∧
  length (List.filter is_kernel_def (code (self r1.2))) = 1 ∧
  length (List.filter is_kernel_def (code (self r2.2))) = 2.
Proof.
  intros Ho1 Ho2. cbn zeta. unfold new.
  rewrite generate_spec; [|cbn [level __init__]; lia|done].
  cbn [fst snd]. rewrite generate_spec; [|cbn [level __init__ set_file set_code]; lia|done].
  cbn [fst snd self proc fs code set_file set_code __init__ app].
  change (emitted _) with (emitted (__init__ op)).
  rewrite !lookup_insert_eq. unfold artifact. rewrite join_lines_app.
  rewrite List.filter_app, length_app, kernel_defs_emitted, ODE_func_header_eq.
  done.
Qed.

(** ** Decimal indices inside the emitted text *)

Lemma string_of_uint_digits (d : Decimal.uint) :
  str_forallb is_digit (NilEmpty.string_of_uint d) = true.
Proof. induction d as [|d IH|d IH|d IH|d IH|d IH|d IH|d IH|d IH|d IH|d IH]; done. Qed.

Lemma str_of_nat_digits (k : nat) : str_forallb is_digit (str_of_nat k) = true.
Proof. apply string_of_uint_digits. Qed.

Lemma str_of_nat_inj (i j : nat) : str_of_nat i = str_of_nat j → i = j.
Proof.
  unfold str_of_nat. intros H.
  apply DecimalNat.Unsigned.to_uint_inj.
  apply (f_equal NilEmpty.uint_of_string) in H.
  rewrite !NilEmpty.usu in H. congruence.
Qed.

(** Two runs of digits that are each followed by something else are the
    same run when the texts are the same. *)
Lemma digits_app_inj (a b : string) (x y : ascii) (r r' : string) :
  str_forallb is_digit a = true → str_forallb is_digit b = true →
  is_digit x = false → is_digit y = false →
  a +:+ String x r = b +:+ String y r' → a = b.
Proof.
  revert b. induction a as [|c a IH]; intros [|c' b] Ha Hb Hx Hy H.
  - done.
  - injection H as -> _. cbn [str_forallb] in Hb. by rewrite Hx in Hb.
  - injection H as -> _. cbn [str_forallb] in Ha. by rewrite Hy in Ha.
  - injection H as -> H. cbn [str_forallb] in Ha, Hb.
    apply andb_prop in Ha as [_ Ha]. apply andb_prop in Hb as [_ Hb].
    f_equal. by apply IH.
Qed.

Lemma spmv_call_inj (i j : nat) (c c' : string) :
  spmv_call i c = spmv_call j c' → i = j.
Proof.
  unfold spmv_call. intros H. apply (inj (String.app "spmvpy(&data")) in H.
  apply str_of_nat_inj.
  by apply (digits_app_inj _ _ "[" "[" _ _
              (str_of_nat_digits i) (str_of_nat_digits j) eq_refl eq_refl H).
Qed.

(** Two texts that start with different characters differ. *)
Ltac first_char_clash H :=
  exfalso;
  apply (f_equal (λ s, match s with String a _ => Some a | "" => None end)) in H;
  lazy in H; discriminate H.

Lemma guarded_call_in_term_lines (i j : nat) (c : string) (t : HamiltonianTerm) :
  "    " +:+ spmv_call i c ∈ term_lines j t → i = j ∧ guarded t = true.
Proof.
  unfold term_lines. destruct (guarded t); intros Hin.
  - apply elem_of_cons in Hin as [H|Hin]; [first_char_clash H|].
    apply elem_of_cons in Hin as [H|Hin]; [first_char_clash H|].
    apply list_elem_of_singleton in Hin.
    apply (inj (String.app "    ")) in Hin. split; [|done].
    by apply spmv_call_inj in Hin.
  - apply list_elem_of_singleton in Hin. first_char_clash Hin.
Qed.

Lemma plain_call_in_term_lines (i j : nat) (c : string) (t : HamiltonianTerm) :
  spmv_call i c ∈ term_lines j t → i = j ∧ guarded t = false.
Proof.
  unfold term_lines. destruct (guarded t); intros Hin.
  - apply elem_of_cons in Hin as [H|Hin]; [first_char_clash H|].
    apply elem_of_cons in Hin as [H|Hin]; [first_char_clash H|].
    apply list_elem_of_singleton in Hin. first_char_clash Hin.
  - apply list_elem_of_singleton in Hin. split; [|done].
    by apply spmv_call_inj in Hin.
Qed.

Lemma elem_of_concat_imap {A B} (f : nat → A → list B) (l : list A) (y : B) :
  y ∈ concat (imap f l) ↔ ∃ j x, l !! j = Some x ∧ y ∈ f j x.
Proof.
  rewrite list_elem_of_In, in_concat. split.
  - intros (ys & Hys & Hy). apply list_elem_of_In, elem_of_lookup_imap in Hys
      as (j & x & -> & Hx). exists j, x. by rewrite list_elem_of_In.
  - intros (j & x & Hx & Hy). exists (f j x). split.
    + apply list_elem_of_In. by apply elem_of_lookup_imap_2.
    + by apply list_elem_of_In.
Qed.

(** The lines of a term sit between the lines of the terms before it and
    the lines of the terms after it. *)
Lemma concat_imap_lookup {A B} (f : nat → A → list B) (l : list A) (i : nat) (x : A) :
  l !! i = Some x →
  concat (imap f l) =
  concat (imap f (take i l)) ++ f i x ++
  concat (imap (λ k, f (S i + k)) (drop (S i) l)).
Proof.
  intros Hx. rewrite <-(take_drop_middle l i x Hx) at 1.
  rewrite imap_app, concat_app, imap_cons. cbn [concat].
  assert (length (take i l) = i) as Hlen.
  { rewrite length_take. apply lookup_lt_Some in Hx. lia. }
  rewrite Hlen, Nat.add_0_r. do 3 f_equal.
  apply imap_ext. intros k y _. cbn. f_equal. lia.
Qed.

(** ** The accumulation statements of [func_vars] *)

Lemma term_lines_accum (i : nat) (t : HamiltonianTerm) :
  ∃ before, term_lines i t = before ++ [accum_stmt i t].
Proof.
  unfold term_lines, accum_stmt. destruct (guarded t).
  - by eexists [_; _].
  - by exists [].
Qed.

Lemma truthy_guarded (t : HamiltonianTerm) :
  truthy (term_1 t) = true → guarded t = true.
Proof. unfold guarded. intros ->. apply orb_true_r. Qed.

Lemma tuple_guarded (t : HamiltonianTerm) :
  term_type t = PyTuple → guarded t = declared t.
Proof. unfold guarded, declared. by intros ->. Qed.

Lemma lookup_take_lt {A} (l : list A) (i j : nat) (x : A) :
  take i l !! j = Some x → j < i.
Proof.
  intros H. apply lookup_lt_Some in H. rewrite length_take in H. lia.
Qed.

Lemma two_in_order {A} (h : A) (p bi q bj r : list A) (x y : A) :
  h :: p ++ (bi ++ [x]) ++ q ++ (bj ++ [y]) ++ r =
  (h :: p ++ bi) ++ [x] ++ (q ++ bj) ++ [y] ++ r.
Proof. cbn [app]. f_equal. by rewrite <-!(assoc_L (++)). Qed.

(** C2. For a term whose second entry is a non-empty expression, [func_vars]
    emits, one after another, the assignment of the expression to [td<i>],
    the test [if abs(td<i>) > 1e-15:] and, indented under that test, the
    accumulation call with coefficient [td<i>]. That call occurs nowhere
    else, no accumulation call for the term stands outside the test, and the
    line after the call is not indented, so that the test governs this call
    and nothing more: the strict comparison lets the call run only for a
    magnitude above 1e-15. *)
Theorem time_dependent_term_guarded (op : OpSystem) (i : nat) (term : HamiltonianTerm) :
  system op !! i = Some term →
  truthy (term_1 term) = true →
  ∃ pre post,
    func_vars (__init__ op) =
      pre ++
      [ "td" +:+ str_of_nat i +:+ " = " +:+ str_of (term_1 term);
        "if abs(td" +:+ str_of_nat i +:+ ") > 1e-15:";
        "    " +:+ spmv_call i ("td" +:+ str_of_nat i) ] ++ post ∧
    (∀ c, "    " +:+ spmv_call i c ∉ pre ++ post) ∧
    (∀ c, spmv_call i c ∉ func_vars (__init__ op)) ∧
    (∀ l, head post = Some l → starts_with_blank l = false).
Proof.
  intros Hterm Htd. pose proof (truthy_guarded _ Htd) as Hg.
  rewrite func_vars_eq. cbn [op_system __init__].
  rewrite (concat_imap_lookup _ _ _ _ Hterm).
  exists ("# Eval the time-dependent terms and do SPMV." ::
          concat (imap term_lines (take i (system op)))),
         (concat (imap (λ k, term_lines (S i + k)) (drop (S i) (system op)))).
  split; [|split; [|split]].
  - unfold term_lines at 2. rewrite Hg. done.
  - intros c Hin. apply elem_of_app in Hin as [Hin|Hin].
    + apply elem_of_cons in Hin as [H|Hin]; [first_char_clash H|].
      apply elem_of_concat_imap in Hin as (j & x & Hx & Hin).
      apply lookup_take_lt in Hx.
      apply guarded_call_in_term_lines in Hin as [-> _]. lia.
    + apply elem_of_concat_imap in Hin as (j & x & Hx & Hin).
      apply guarded_call_in_term_lines in Hin as [Hi _]. lia.
  - intros c Hin. rewrite <-(concat_imap_lookup _ _ _ _ Hterm) in Hin.
    apply elem_of_cons in Hin as [H|Hin]; [first_char_clash H|].
    apply elem_of_concat_imap in Hin as (j & x & Hx & Hin).
    apply plain_call_in_term_lines in Hin as [<- Hx'].
    rewrite Hterm in Hx. injection Hx as ->. congruence.
  - intros l. destruct (drop (S i) (system op)) as [|t rest]; [done|].
    rewrite imap_cons. cbn [concat].
    destruct (term_lines_accum (S i + 0) t) as [before Hb].
    unfold term_lines in *. destruct (guarded t); cbn [app head]; by intros [= <-].
Qed.

(** C7, as the code has it. A term that is not a Python list and whose second
    entry is [None] or empty gets exactly one accumulation call, with
    coefficient 1.0, on its own arrays [data<i>], [idx<i>], [ptr<i>], and no
    call under a test; and for any two terms the accumulation statement of
    the earlier one comes before that of the later one. *)
Theorem constant_tuple_term_unguarded (op : OpSystem) :
  (∀ i term,
     system op !! i = Some term →
     term_type term = PyTuple →
     truthy (term_1 term) = false →
     ∃ pre post,
       func_vars (__init__ op) = pre ++ [spmv_call i "1.0"] ++ post ∧
       (∀ c, spmv_call i c ∉ pre ++ post) ∧
       (∀ c, "    " +:+ spmv_call i c ∉ func_vars (__init__ op))) ∧
  (∀ i j ti tj,
     i < j →
     system op !! i = Some ti →
     system op !! j = Some tj →
     ∃ a b c,
       func_vars (__init__ op) =
       a ++ [accum_stmt i ti] ++ b ++ [accum_stmt j tj] ++ c).
Proof.
  split.
  - intros i term Hterm Htuple Hfalse.
    assert (guarded term = false) as Hg.
    { rewrite tuple_guarded by done. done. }
    rewrite func_vars_eq. cbn [op_system __init__].
    rewrite (concat_imap_lookup _ _ _ _ Hterm).
    exists ("# Eval the time-dependent terms and do SPMV." ::
            concat (imap term_lines (take i (system op)))),
           (concat (imap (λ k, term_lines (S i + k)) (drop (S i) (system op)))).
    split; [|split].
    + unfold term_lines at 2. rewrite Hg. done.
    + intros c Hin. apply elem_of_app in Hin as [Hin|Hin].
      * apply elem_of_cons in Hin as [H|Hin]; [first_char_clash H|].
        apply elem_of_concat_imap in Hin as (j & x & Hx & Hin).
        apply lookup_take_lt in Hx.
        apply plain_call_in_term_lines in Hin as [-> _]. lia.
      * apply elem_of_concat_imap in Hin as (j & x & Hx & Hin).
        apply plain_call_in_term_lines in Hin as [Hi _]. lia.
    + intros c Hin. rewrite <-(concat_imap_lookup _ _ _ _ Hterm) in Hin.
      apply elem_of_cons in Hin as [H|Hin]; [first_char_clash H|].
      apply elem_of_concat_imap in Hin as (j & x & Hx & Hin).
      apply guarded_call_in_term_lines in Hin as [<- Hx'].
      rewrite Hterm in Hx. injection Hx as ->. congruence.
  - intros i j ti tj Hij Hi Hj.
    rewrite func_vars_eq. cbn [op_system __init__].
    rewrite (concat_imap_lookup _ _ _ _ Hi).
    assert (drop (S i) (system op) !! (j - S i) = Some tj) as Hj'.
    { rewrite lookup_drop. rewrite <-Hj. f_equal. lia. }
    rewrite (concat_imap_lookup _ _ _ _ Hj').
    replace (S i + (j - S i)) with j by lia.
    destruct (term_lines_accum i ti) as [bi ->].
    destruct (term_lines_accum j tj) as [bj ->].
    eexists _, _, _. apply two_in_order.
Qed.

(** ** The artifact of a new instance *)

Lemma generate_new (op : OpSystem) (filename : option string) (p : process) :
  open_error p (default "rhs.pyx" filename) = None →
  generate filename (new op p) =
  (Return (),
   {| self := set_file (set_code (__init__ op) (emitted (__init__ op)))
                       (Some (default "rhs.pyx" filename));
      proc := {| fs := <[default "rhs.pyx" filename := artifact op]> (fs p);
                 CGEN_NUM := CGEN_NUM p + 1;
                 refused := refused p |} |}).
Proof.
  intros Ho. unfold new. rewrite generate_spec; [|cbn [level __init__]; lia|done].
  cbn [code __init__ app]. reflexivity.
Qed.

Lemma generate_new_fails (op : OpSystem) (filename : option string) (p : process) e :
  open_error p (default "rhs.pyx" filename) = Some e →
  generate filename (new op p) =
  (Raise e, {| self := set_code (__init__ op) (emitted (__init__ op)); proc := p |}).
Proof.
  intros Ho. unfold new.
  rewrite (generate_open_fails _ _ _ e); [|cbn [level __init__]; lia|done].
  cbn [code __init__ app]. reflexivity.
Qed.

Lemma generate_new_code (op : OpSystem) (filename : option string) (p : process) :
  code (self (generate filename (new op p)).2) = emitted (__init__ op).
Proof. unfold new. by destruct (generate_appends filename (__init__ op) p) as [-> _]. Qed.

Lemma fmap_lookup_split {A B} (f : A → B) (l : list A) (k : nat) (x : A) :
  l !! k = Some x →
  f <$> l = (f <$> take k l) ++ [f x] ++ (f <$> drop (S k) l).
Proof.
  intros Hx. rewrite <-(take_drop_middle l k x Hx) at 1.
  by rewrite fmap_app, fmap_cons.
Qed.

Lemma func_vars_accum (op : OpSystem) (i : nat) (t : HamiltonianTerm) :
  system op !! i = Some t →
  ∃ a c, func_vars (__init__ op) = a ++ [accum_stmt i t] ++ c.
Proof.
  intros Ht. rewrite func_vars_eq. cbn [op_system __init__].
  rewrite (concat_imap_lookup _ _ _ _ Ht).
  destruct (term_lines_accum i t) as [before ->].
  exists ("# Eval the time-dependent terms and do SPMV." ::
          concat (imap term_lines (take i (system op))) ++ before),
         (concat (imap (λ k, term_lines (S i + k)) (drop (S i) (system op)))).
  cbn [app]. f_equal. by rewrite <-!(assoc_L (++)).
Qed.

(** C6. [channels] emits, between a blank line and a comment before and a
    blank line after, one statement per channel in the order of the channel
    table, each assigning [channel_value(t, index, name_pulses, pulse_array,
    pulse_indices, name_fc, register)] to the channel's name; [generate]
    writes these lines after the declarations and before all lines of
    [func_vars], so every channel statement comes before every accumulation
    statement. *)
Theorem channels_before_accumulation (op : OpSystem) (filename : option string) (p : process) :
  channels_ (__init__ op) =
    [ ""; "# Compute complex channel values at time `t`" ] ++
    ((λ e, e.1 +:+ " = channel_value(t, " +:+ str_of_Z e.2 +:+ ", " +:+
           e.1 +:+ "_pulses,  pulse_array, pulse_indices, " +:+
           e.1 +:+ "_fc, register)") <$> channels op) ++
    [ "" ] ∧
  code (self (generate filename (new op p)).2) =
    (written 0 <$> cython_preamble ++ cython_checks ++ ODE_func_header (__init__ op)) ++
    (written 1 <$> func_header op) ++
    (written 1 <$> channels_ (__init__ op)) ++
    (written 1 <$> func_vars (__init__ op)) ++
    (written 1 <$> func_end (__init__ op)) ∧
  (∀ k e i t,
     channels op !! k = Some e →
     system op !! i = Some t →
     ∃ a b c,
       code (self (generate filename (new op p)).2) =
       a ++ [written 1 (channel_stmt e)] ++ b ++ [written 1 (accum_stmt i t)] ++ c).
Proof.
  assert (code (self (generate filename (new op p)).2) =
    (written 0 <$> cython_preamble ++ cython_checks ++ ODE_func_header (__init__ op)) ++
    (written 1 <$> func_header op) ++
    (written 1 <$> channels_ (__init__ op)) ++
    (written 1 <$> func_vars (__init__ op)) ++
    (written 1 <$> func_end (__init__ op))) as Hcode.
  { rewrite generate_new_code.
    unfold emitted. cbn [level op_system __init__]. by rewrite !fmap_app. }
  split; [apply channels_eq|]. split; [done|].
  intros k e i t He Ht. rewrite Hcode, channels_eq. cbn [op_system __init__].
  destruct (func_vars_accum op i t Ht) as (a' & c' & ->).
  rewrite (fmap_lookup_split channel_stmt _ k e He).
  exists ((written 0 <$> cython_preamble ++ cython_checks ++ ODE_func_header (__init__ op)) ++
          (written 1 <$> func_header op) ++
          (written 1 <$> [ ""; "# Compute complex channel values at time `t`" ]) ++
          (written 1 <$> (channel_stmt <$> take k (channels op)))),
         ((written 1 <$> (channel_stmt <$> drop (S k) (channels op))) ++
          [written 1 ""] ++ (written 1 <$> a')),
         ((written 1 <$> c') ++ (written 1 <$> func_end (__init__ op))).
  rewrite !fmap_app. cbn [fmap list_fmap].
  rewrite <-!(assoc_L (++)). reflexivity.
Qed.

(** C8. For a model without terms [generate] succeeds, given a file name
    that can be opened. The header lists the
    fixed arguments, the channel pairs and the free variables, with no CSR
    triple; the declarations hold no [td] local; [func_vars] contributes its
    comment line and nothing else, so that between the zeroed allocation of
    [out] and the epilogue that returns it there is no accumulation call and
    no assignment to a [td] local. *)
Theorem no_terms_kernel (op : OpSystem) (filename : option string) (p : process) :
  system op = [] →
  open_error p (default "rhs.pyx" filename) = None →
  let r := generate filename (new op p) in
  r.1 = Return () ∧
  ODE_func_header (__init__ op) =
    [ "def cy_td_ode_rhs(" +:+
      layout ([ (nl8, "double t"); (nl8, "complex[::1] vec");
                (nl8, "complex[::1] pulse_array");
                (nl8, "unsigned int[::1] pulse_indices") ] ++
              (key ← (channels op).*1;
                 [ (nl8, "double[::1] " +:+ key +:+ "_pulses");
                   (nl8, "double[::1] " +:+ key +:+ "_fc") ]) ++
              ((λ key, (nl8, "complex " +:+ key)) <$> vars op) ++
              [ (nl8, "unsigned char[::1] register") ]) +:+
      "):" ] ∧
  func_header op =
    [ ""; "cdef size_t row"; "cdef unsigned int num_rows = vec.shape[0]";
      "cdef double complex * out = <complex *>PyDataMem_NEW_ZEROED(num_rows,sizeof(complex))";
      "" ] ++
    ((λ val, "cdef double complex " +:+ val) <$> (channels op).*1) ∧
  func_vars (__init__ op) ++ func_end (__init__ op) =
    [ "# Eval the time-dependent terms and do SPMV.";
      "";
      "# Convert to NumPy array, grab ownership, and return.";
      "cdef np.npy_intp dims = num_rows";
      "cdef np.ndarray[complex, ndim=1, mode='c'] arr_out = np.PyArray_SimpleNewFromData(1, &dims, np.NPY_COMPLEX128, out)";
      "PyArray_ENABLEFLAGS(arr_out, np.NPY_OWNDATA)";
      "return arr_out" ] ∧
  code (self r.2) =
    (written 0 <$> cython_preamble ++ cython_checks ++ ODE_func_header (__init__ op)) ++
    (written 1 <$> func_header op ++ channels_ (__init__ op) ++
                   func_vars (__init__ op) ++ func_end (__init__ op)) ∧
  fs (proc r.2) !! default "rhs.pyx" filename = Some (join_lines (code (self r.2))).
Proof.
  intros Hsys Ho. cbn zeta. rewrite generate_new by done.
  cbn [fst snd self proc fs code set_file set_code].
  split; [done|]. split; [|split; [|split; [|split]]].
  - rewrite ODE_func_header_eq. unfold args_layout. by rewrite Hsys.
  - rewrite func_header_eq, Hsys. cbn [imap concat]. by rewrite app_nil_r.
  - rewrite func_vars_eq. cbn [op_system __init__]. by rewrite Hsys.
  - done.
  - by rewrite lookup_insert_eq.
Qed.


(** C4, as the code has it. [generate] does not look at the names: for every
    model, whatever its channel and free variable names, a new instance
    generates without raising and writes the file when the file can be
    opened, and raises the error of [open] and nothing else when it cannot,
    the process then being left as it was; in both cases each channel name
    is spliced as it is into a local declaration and into its channel
    statement, and each channel and free variable name into the argument
    list of the header. *)
Theorem generate_accepts_any_names (op : OpSystem) (filename : option string) (p : process) :
  let r := generate filename (new op p) in
  (open_error p (default "rhs.pyx" filename) = None →
   r.1 = Return () ∧
   fs (proc r.2) !! default "rhs.pyx" filename = Some (join_lines (code (self r.2)))) ∧
  (∀ e, open_error p (default "rhs.pyx" filename) = Some e →
        r.1 = Raise e ∧ proc r.2 = p) ∧
  written 0 ("def cy_td_ode_rhs(" +:+ layout (args_layout op) +:+ "):") ∈ code (self r.2) ∧
  (∀ name idx,
     (name, idx) ∈ channels op →
     written 1 ("cdef double complex " +:+ name) ∈ code (self r.2) ∧
     written 1 (channel_stmt (name, idx)) ∈ code (self r.2) ∧
     (nl8, "double[::1] " +:+ name +:+ "_pulses") ∈ args_layout op ∧
     (nl8, "double[::1] " +:+ name +:+ "_fc") ∈ args_layout op) ∧
  (∀ name, name ∈ vars op → (nl8, "complex " +:+ name) ∈ args_layout op).
Proof.
  cbn zeta. split; [|split].
  { intros Ho. rewrite generate_new by done.
    cbn [fst snd self proc fs code set_file set_code].
    split; [done|]. by rewrite lookup_insert_eq. }
  { intros e Ho. by rewrite (generate_new_fails _ _ _ e). }
  rewrite generate_new_code.
  unfold emitted. cbn [level op_system __init__].
  rewrite ODE_func_header_eq, func_header_eq, channels_eq. cbn [op_system __init__].
  split; [|split].
  - rewrite !fmap_app. cbn [fmap list_fmap]. set_solver.
  - intros name idx Hin.
    assert (name ∈ (channels op).*1) as Hname.
    { apply list_elem_of_fmap. by exists (name, idx). }
    split; [|split; [|split]].
    + apply elem_of_app. right. apply list_elem_of_fmap.
      exists ("cdef double complex " +:+ name). split; [done|].
      rewrite !elem_of_app. left. right. left. apply list_elem_of_fmap. by exists name.
    + apply elem_of_app. right. apply list_elem_of_fmap.
      exists (channel_stmt (name, idx)). split; [done|].
      rewrite !elem_of_app. right. left. right. left.
      apply list_elem_of_fmap. by exists (name, idx).
    + unfold args_layout. rewrite !elem_of_app. right. right. right. left.
      apply list_elem_of_bind. exists name. split; [|done].
      rewrite !elem_of_cons. auto.
    + unfold args_layout. rewrite !elem_of_app. right. right. right. left.
      apply list_elem_of_bind. exists name. split; [|done].
      rewrite !elem_of_cons. auto.
  - intros name Hin. unfold args_layout. rewrite !elem_of_app.
    right. right. right. right. left. apply list_elem_of_fmap. by exists name.
Qed.

(** ** Reading the header back *)

Lemma str_forallb_app (q : ascii → bool) (a b : string) :
  str_forallb q (a +:+ b) = str_forallb q a && str_forallb q b.
Proof.
  induction a as [|x a IH]; [done|].
  change (String x a +:+ b) with (String x (a +:+ b)).
  cbn [str_forallb]. by rewrite IH, andb_assoc.
Qed.

Lemma str_forallb_impl (q q' : ascii → bool) (s : string) :
  (∀ a, q a = true → q' a = true) →
  str_forallb q s = true → str_forallb q' s = true.
Proof.
  intros Hq. induction s as [|x s IH]; [done|]. cbn [str_forallb].
  intros [Hx Hs]%andb_prop. by rewrite (Hq _ Hx), IH.
Qed.

Lemma split_on_none (c : ascii) (s : string) :
  str_forallb (λ a, negb (Ascii.eqb a c)) s = true → split_on c s = [s].
Proof.
  induction s as [|x s IH]; [done|]. cbn [str_forallb split_on].
  intros [Hx Hs]%andb_prop. apply negb_true_iff in Hx. by rewrite Hx, IH.
Qed.

Lemma split_on_app (c : ascii) (a b : string) :
  str_forallb (λ a, negb (Ascii.eqb a c)) a = true →
  split_on c (a +:+ String c b) = a :: split_on c b.
Proof.
  induction a as [|x a IH].
  - intros _. change ("" +:+ String c b) with (String c b).
    cbn [split_on]. by rewrite Ascii.eqb_refl.
  - cbn [str_forallb]. intros [Hx Ha]%andb_prop. apply negb_true_iff in Hx.
    change (String x a +:+ String c b) with (String x (a +:+ String c b)).
    cbn [split_on]. by rewrite Hx, IH.
Qed.

Lemma after_char_app (c : ascii) (a b : string) :
  str_forallb (λ a, negb (Ascii.eqb a c)) a = true →
  after_char c (a +:+ String c b) = b.
Proof.
  induction a as [|x a IH].
  - intros _. change ("" +:+ String c b) with (String c b).
    cbn [after_char]. by rewrite Ascii.eqb_refl.
  - cbn [str_forallb]. intros [Hx Ha]%andb_prop. apply negb_true_iff in Hx.
    change (String x a +:+ String c b) with (String x (a +:+ String c b)).
    cbn [after_char]. by rewrite Hx, IH.
Qed.

Lemma before_char_app (c : ascii) (a b : string) :
  str_forallb (λ a, negb (Ascii.eqb a c)) a = true →
  before_char c (a +:+ String c b) = a.
Proof.
  induction a as [|x a IH].
  - intros _. change ("" +:+ String c b) with (String c b).
    cbn [before_char]. by rewrite Ascii.eqb_refl.
  - cbn [str_forallb]. intros [Hx Ha]%andb_prop. apply negb_true_iff in Hx.
    change (String x a +:+ String c b) with (String x (a +:+ String c b)).
    cbn [before_char]. by rewrite Hx, IH.
Qed.

Lemma plain_no_comma (s : string) :
  str_forallb plain_char s = true →
  str_forallb (λ a, negb (Ascii.eqb a ",")) s = true.
Proof.
  apply str_forallb_impl. intros a. unfold plain_char. by intros [? _]%andb_prop.
Qed.

Lemma plain_no_paren (s : string) :
  str_forallb plain_char s = true →
  str_forallb (λ a, negb (Ascii.eqb a ")")) s = true.
Proof.
  apply str_forallb_impl. intros a. unfold plain_char. by intros [_ ?]%andb_prop.
Qed.

Lemma digit_plain (a : ascii) : is_digit a = true → plain_char a = true.
Proof. destruct a as [[] [] [] [] [] [] [] []]; by vm_compute. Qed.

Lemma ident_char_plain (a : ascii) : ident_char a = true → plain_char a = true.
Proof. destruct a as [[] [] [] [] [] [] [] []]; by vm_compute. Qed.

Lemma str_of_nat_plain (k : nat) : str_forallb plain_char (str_of_nat k) = true.
Proof. eapply str_forallb_impl; [apply digit_plain|apply str_of_nat_digits]. Qed.

Lemma identifier_plain (s : string) :
  identifier s = true → str_forallb plain_char s = true.
Proof.
  unfold identifier. destruct s as [|a s]; [done|].
  intros [_ H]%andb_prop. revert H. apply str_forallb_impl, ident_char_plain.
Qed.

(** Cutting the text of an argument list at its commas gives back the
    entries. *)
Lemma split_on_layout (first : string) (l : list (string * string)) :
  str_forallb plain_char first = true →
  Forall readable l →
  split_on "," (first +:+ join_lines ((λ e, "," +:+ e.1 +:+ e.2) <$> l)) =
  first :: ((λ e, e.1 +:+ e.2) <$> l).
Proof.
  intros Hfirst Hl. revert first Hfirst.
  induction Hl as [|e l [He _] _ IH]; intros first Hfirst.
  - cbn [fmap list_fmap join_lines]. rewrite str_app_nil_r.
    by apply split_on_none, plain_no_comma.
  - rewrite !fmap_cons. cbn [join_lines].
    change (("," +:+ e.1 +:+ e.2) +:+ ?r) with (String "," ((e.1 +:+ e.2) +:+ r)).
    rewrite split_on_app by by apply plain_no_comma.
    by rewrite IH.
Qed.

Lemma layout_plain (first : string) (l : list (string * string)) :
  str_forallb plain_char first = true →
  Forall readable l →
  str_forallb (λ a, negb (Ascii.eqb a ")"))
    (first +:+ join_lines ((λ e, "," +:+ e.1 +:+ e.2) <$> l)) = true.
Proof.
  intros Hfirst Hl. rewrite str_forallb_app, (plain_no_paren _ Hfirst).
  cbn [andb]. induction Hl as [|e l [He _] _ IH]; [done|].
  rewrite fmap_cons. cbn [join_lines].
  change (("," +:+ e.1 +:+ e.2) +:+ ?r) with (String "," ((e.1 +:+ e.2) +:+ r)).
  cbn [str_forallb]. rewrite str_forallb_app, (plain_no_paren _ He), IH. done.
Qed.

Ltac readable_entry :=
  split; cbn [fst snd]; [rewrite ?str_forallb_app|]; rewrite ?str_of_nat_plain;
  repeat match goal with H : str_forallb plain_char _ = true |- _ => rewrite H end;
  reflexivity.

Ltac readable_list :=
  repeat (apply Forall_cons_2; [readable_entry|]); apply Forall_nil_2.

Lemma args_layout_readable (op : OpSystem) :
  Forall (λ key, identifier key = true) ((channels op).*1 ++ vars op) →
  Forall readable (args_layout op).
Proof.
  intros [Hch Hv]%Forall_app. unfold args_layout.
  repeat apply Forall_app_2.
  - readable_list.
  - apply Forall_bind, Forall_forall. intros k _.
    readable_list.
  - readable_list.
  - apply Forall_bind. eapply Forall_impl; [exact Hch|]. intros key Hkey.
    apply identifier_plain in Hkey. readable_list.
  - apply Forall_fmap. eapply Forall_impl; [exact Hv|]. intros key Hkey.
    apply identifier_plain in Hkey. readable_entry.
  - readable_list.
Qed.

Lemma fmap_bind {A B C} (f : B → C) (g : A → list B) (l : list A) :
  f <$> (l ≫= g) = l ≫= (λ x, f <$> g x).
Proof.
  induction l as [|x l IH]; [done|]. by rewrite !bind_cons, fmap_app, IH.
Qed.

Lemma args_layout_signature (op : OpSystem) : (args_layout op).*2 = signature op.
Proof.
  unfold args_layout, signature. rewrite !fmap_app, !fmap_bind.
  rewrite <-list_fmap_compose. reflexivity.
Qed.

Lemma bind_length {A B} (f : A → list B) (n : nat) (l : list A) :
  (∀ x, length (f x) = n) → length (l ≫= f) = n * length l.
Proof.
  intros Hf. induction l as [|x l IH]; [cbn; lia|].
  rewrite bind_cons, length_app, Hf, IH. cbn [length]. lia.
Qed.

Lemma def_args_layout (first : string * string) (l : list (string * string)) :
  Forall readable (first :: l) →
  def_args ("def cy_td_ode_rhs(" +:+ layout (first :: l) +:+ "):") = (first :: l).*2.
Proof.
  intros [[Hp Hs] Hl]%Forall_cons. unfold def_args, layout. destruct first as [ws d].
  cbn [fst snd] in *.
  change ("def cy_td_ode_rhs(" +:+ ?b +:+ "):")
    with ("def cy_td_ode_rhs" +:+ String "(" (b +:+ String ")" ":")).
  rewrite after_char_app by reflexivity.
  rewrite before_char_app by by apply layout_plain.
  rewrite split_on_layout by done.
  rewrite !fmap_cons. cbn [fst snd]. rewrite Hs. f_equal.
  rewrite <-list_fmap_compose. apply Forall_fmap_ext_1.
  eapply Forall_impl; [exact Hl|]. by intros e [_ He].
Qed.

(** C1. The header emitted for a model is the kernel's name followed by the
    argument list laid out from [args_layout]; its declarations are, in this
    order, [t], [vec], the triple [data<k>], [idx<k>], [ptr<k>] of every term,
    [pulse_array], [pulse_indices], the pair [<name>_pulses], [<name>_fc] of
    every channel in the order of the channel table, one complex scalar for
    every free variable in the order of its table, and [register]; they are
    [2 + 3*terms + 2 + 2*channels + variables + 1] in number; and when the
    channel and variable names are identifiers, cutting the text between the
    parentheses of the emitted header at its commas gives exactly these
    declarations. *)
Theorem header_argument_contract (op : OpSystem) :
  ODE_func_header (__init__ op) =
    [ "def cy_td_ode_rhs(" +:+ layout (args_layout op) +:+ "):" ] ∧
  (args_layout op).*2 = signature op ∧
  length (signature op) =
    2 + 3 * length (system op) + 2 + 2 * length (channels op) + length (vars op) + 1 ∧
  (Forall (λ key, identifier key = true) ((channels op).*1 ++ vars op) →
   def_args <$> ODE_func_header (__init__ op) = [ signature op ]).
Proof.
  split; [apply ODE_func_header_eq|]. split; [apply args_layout_signature|]. split.
  - unfold signature. rewrite !length_app, !length_fmap.
    rewrite (bind_length _ 3) by done. rewrite (bind_length _ 2) by done.
    rewrite length_seq, length_fmap. cbn [length]. lia.
  - intros Hnames. rewrite ODE_func_header_eq, <-args_layout_signature.
    pose proof (args_layout_readable op Hnames) as Hr.
    unfold args_layout in *. cbn [app] in *. cbn [fmap list_fmap].
    f_equal. by apply def_args_layout.
Qed.

(** ** [generate] from any instance *)


(** X2. [generate] returns normally exactly when the level it starts from
    is not [-1] and the file can be opened. At level [-1] the error is the
    [SyntaxError] of [dedent], whatever the file name, and the level is left
    at zero; otherwise the error is the one [open] raises, and the level is
    the one before the call. In both cases the files, the counter and
    [self._file] are as before, and the emitted lines have nevertheless been
    appended to the lines held. *)
Theorem generate_raises_iff (filename : option string) (c : OPCodegen) (p : process) :
  let r := generate filename {| self := c; proc := p |} in
  (r.1 = Return () ↔
   level c ≠ (-1)%Z ∧ open_error p (default "rhs.pyx" filename) = None) ∧
  (level c = (-1)%Z →
   r.1 = Raise (SyntaxError "Error in code generator") ∧
   proc r.2 = p ∧
   _file (self r.2) = _file c ∧
   code (self r.2) = code c ++ emitted c ∧
   level (self r.2) = 0%Z) ∧
  (level c ≠ (-1)%Z →
   ∀ e, open_error p (default "rhs.pyx" filename) = Some e →
        r.1 = Raise e ∧
        proc r.2 = p ∧
        _file (self r.2) = _file c ∧
        code (self r.2) = code c ++ emitted c ∧
        level (self r.2) = level c).
Proof.
  cbn zeta. split; [|split].
  - destruct (decide (level c = (-1)%Z)) as [Hc|Hc].
    + rewrite generate_minus_one by done. cbn [fst]. split; [done|]. by intros [].
    + destruct (open_error p (default "rhs.pyx" filename)) as [e|] eqn:Ho.
      * rewrite (generate_open_fails _ _ _ e) by done. cbn [fst].
        split; [done|]. by intros [].
      * rewrite generate_spec by done. by cbn [fst].
  - intros Hc. by rewrite generate_minus_one by done.
  - intros Hc e Ho. by rewrite (generate_open_fails _ _ _ e) by done.
Qed.

(** ** Invariants of sequences of calls *)

Lemma run_app (ms ms' : list call) (s : state) :
  run (ms ++ ms') s = run ms' (run ms s).
Proof. revert s. induction ms as [|m ms IH]; intros s; [done|]. cbn [app run]. apply IH. Qed.

Lemma set_level_back (c : OPCodegen) :
  set_level (set_level c (level c + 1)) (level c + 1 - 1) = c.
Proof.
  destruct c as [o n f cd l sp]. unfold set_level. cbn.
  by replace (l + 1 - 1)%Z with l by lia.
Qed.

(** X3. From a level that is not negative, [n] calls of [indent] followed by
    [n] calls of [dedent] give back the very same state, and none of them
    raises; at level zero one more [dedent] raises. *)
Theorem balanced_indentation (n : nat) (s : state) :
  (0 ≤ level (self s))%Z →
  run (replicate n Indent ++ replicate n Dedent) s = s ∧
  (level (self s) = 0%Z →
   (dedent (run (replicate n Indent ++ replicate n Dedent) s)).1 =
   Raise (SyntaxError "Error in code generator")).
Proof.
  intros Hs.
  assert (run (replicate n Indent ++ replicate n Dedent) s = s) as Hrun.
  { revert s Hs. induction n as [|n IH]; intros [c p] Hc; [done|].
    rewrite (replicate_S_end n Dedent). cbn [replicate app run method].
    rewrite indent_spec. cbn [snd]. rewrite (assoc_L (++)), run_app.
    rewrite IH by (cbn [self set_level level] in *; lia).
    cbn [run method]. rewrite dedent_nonzero by (cbn [self set_level level] in *; lia).
    cbn [snd set_level level]. f_equal. apply set_level_back. }
  split; [done|]. rewrite Hrun. destruct s as [c p]. cbn [self].
  intros H0. by rewrite dedent_zero.
Qed.

Lemma method_code (m : call) (s : state) :
  ∃ added, code (self (method m s).2) = code (self s) ++ added ∧
           Forall (λ l, ∃ body, l = body +:+ nl) added ∧
           op_system (self (method m s).2) = op_system (self s).
Proof.
  assert (∀ lv ls, Forall (λ l, ∃ body, l = body +:+ nl) (written lv <$> ls)) as Hw.
  { intros lv ls. apply Forall_fmap, Forall_forall. intros l _.
    exists (str_mul "    " lv +:+ l). unfold written. by rewrite str_app_assoc. }
  destruct s as [c p]. destruct m as [text| | |filename|filename]; cbn [method self].
  - rewrite write_spec. exists [written (level c) text].
    split; [done|]. split; [apply (Hw _ [text])|done].
  - rewrite indent_spec. exists []. by rewrite app_nil_r.
  - destruct (decide (level c = 0%Z)) as [H0|H0].
    + rewrite dedent_zero by done. exists []. by rewrite app_nil_r.
    + rewrite dedent_nonzero by done. exists []. by rewrite app_nil_r.
  - exists []. rewrite app_nil_r.
    destruct (open_error p filename) as [e|] eqn:Ho.
    + by rewrite (file_fails _ _ _ e).
    + by rewrite file_spec.
  - exists (emitted c). destruct (generate_appends filename c p) as [-> ->].
    split; [done|]. split; [|done].
    unfold emitted. apply Forall_app_2; apply Hw.
Qed.

(** X4. Whatever methods are called on an instance, in whatever state, the
    lines it held stay where they were, at the front of [self.code], and the
    model it was built for stays the same: nothing resets or rewrites the
    accumulated lines. *)
Theorem code_only_grows (ms : list call) (s : state) :
  code (self s) `prefix_of` code (self (run ms s)) ∧
  op_system (self (run ms s)) = op_system (self s).
Proof.
  revert s. induction ms as [|m ms IH]; intros s; cbn [run]; [done|].
  destruct (method_code m s) as (added & Hcode & _ & Hop).
  destruct (IH (method m s).2) as [Hpre Hop'].
  split; [|congruence].
  etrans; [|exact Hpre]. rewrite Hcode. by apply prefix_app_r.
Qed.

(** X5. Every line a new instance comes to hold, by [write] or by
    [generate], ends in a line feed; so does then every file [generate]
    writes. *)
Theorem lines_end_in_line_feed (op : OpSystem) (p : process) (ms : list call) :
  Forall (λ l, ∃ body, l = body +:+ nl) (code (self (run ms (new op p)))).
Proof.
  assert (∀ ms s, Forall (λ l, ∃ body, l = body +:+ nl) (code (self s)) →
                  Forall (λ l, ∃ body, l = body +:+ nl) (code (self (run ms s)))) as H.
  { clear. intros ms. induction ms as [|m ms IH]; intros s Hs; cbn [run]; [done|].
    apply IH. destruct (method_code m s) as (added & -> & Hadded & _).
    by apply Forall_app_2. }
  apply H. by apply Forall_nil_2.
Qed.

Lemma method_counter (m : call) (s : state) :
  (0 ≤ level (self s))%Z →
  CGEN_NUM (proc (method m s).2) =
  (CGEN_NUM (proc s) + if generates (proc s) m then 1 else 0)%Z.
Proof.
  destruct s as [c p]. cbn [self proc]. intros Hc.
  destruct m as [text| | |filename|filename]; cbn [method generates].
  - rewrite write_spec. cbn. lia.
  - rewrite indent_spec. cbn. lia.
  - destruct (decide (level c = 0%Z)) as [H0|H0].
    + rewrite dedent_zero by done. cbn. lia.
    + rewrite dedent_nonzero by done. cbn. lia.
  - destruct (open_error p filename) as [e|] eqn:Ho.
    + rewrite (file_fails _ _ _ e) by done. cbn. lia.
    + rewrite file_spec by done. cbn. lia.
  - destruct (open_error p (default "rhs.pyx" filename)) as [e|] eqn:Ho.
    + rewrite (generate_open_fails _ _ _ e) by (done || lia). cbn. lia.
    + rewrite generate_spec by (done || lia). done.
Qed.

Lemma generates_refused (p q : process) (m : call) :
  refused q = refused p → generates q m = generates p m.
Proof.
  intros H. destruct m as [text| | |filename|filename]; try done.
  cbn [generates]. by rewrite (open_error_refused p q).
Qed.

(** X6. On a new instance, whatever calls of [write], [indent], [dedent] and
    [file] come between, a call of [generate] adds one to the counter when
    its file can be opened and leaves the counter when it cannot: after any
    sequence of calls the counter has grown by the number of [generate]
    calls in the sequence whose file can be opened. *)
Theorem counter_counts_generations (op : OpSystem) (p : process) (ms : list call) :
  CGEN_NUM (proc (run ms (new op p))) =
  (CGEN_NUM p + Z.of_nat (length (List.filter (generates p) ms)))%Z.
Proof.
  assert (∀ ms s, (0 ≤ level (self s))%Z → refused (proc s) = refused p →
            CGEN_NUM (proc (run ms s)) =
            (CGEN_NUM (proc s) + Z.of_nat (length (List.filter (generates p) ms)))%Z) as H.
  { clear. intros ms. induction ms as [|m ms IH]; intros s Hs Hr; cbn [run List.filter].
    - cbn. lia.
    - rewrite IH; [|by apply method_level|by rewrite method_refused].
      rewrite method_counter by done. rewrite (generates_refused p (proc s)) by done.
      destruct (generates p m); cbn [length]; lia. }
  by apply H.
Qed.

(** ** Counting what [func_vars] and [func_header] emit *)

Lemma filter_spmv_term_lines (i : nat) (t : HamiltonianTerm) :
  List.filter is_spmv_line (term_lines i t) = [accum_stmt i t].
Proof. unfold term_lines, accum_stmt. by destruct (guarded t). Qed.

Lemma filter_spmv_concat (g : nat → nat) (l : list HamiltonianTerm) :
  List.filter is_spmv_line (concat (imap (λ k, term_lines (g k)) l)) =
  imap (λ k, accum_stmt (g k)) l.
Proof.
  revert g. induction l as [|t l IH]; intros g; [done|].
  rewrite !imap_cons. cbn [concat].
  rewrite List.filter_app, filter_spmv_term_lines. cbn [app]. f_equal.
  apply (IH (g ∘ S)).
Qed.

Lemma length_term_lines_concat (g : nat → nat) (l : list HamiltonianTerm) :
  length (concat (imap (λ k, term_lines (g k)) l)) =
  length l + 2 * length (List.filter guarded l).
Proof.
  revert g. induction l as [|t l IH]; intros g; [done|].
  rewrite imap_cons. cbn [concat List.filter]. rewrite length_app.
  assert (length (concat (imap ((λ k, term_lines (g k)) ∘ S) l)) =
          length l + 2 * length (List.filter guarded l)) as -> by apply (IH (g ∘ S)).
  unfold term_lines.
  destruct (guarded t); cbn [length]; lia.
Qed.

(** X7. In the lines of [func_vars] the accumulation calls are, in this
    order, exactly one for every term of the term list: the guarded call of
    a term taken as time dependent, the plain call of any other; and
    [func_vars] emits one comment line, one line for every term and two
    more for every term taken as time dependent. *)
Theorem one_accumulation_per_term (op : OpSystem) :
  List.filter is_spmv_line (func_vars (__init__ op)) = imap accum_stmt (system op) ∧
  length (func_vars (__init__ op)) =
    1 + length (system op) + 2 * length (List.filter guarded (system op)).
Proof.
  rewrite func_vars_eq. cbn [op_system __init__]. split.
  - change (List.filter is_spmv_line (?c :: ?r)) with (List.filter is_spmv_line r).
    apply (filter_spmv_concat id).
  - cbn [length]. by rewrite (length_term_lines_concat id).
Qed.

(** Two texts that differ at position [n] differ. *)
Ltac nth_char_clash H n :=
  exfalso; apply (f_equal (String.get n)) in H; lazy in H; discriminate H.

(** X8. For the term at index [i], the assignment to [td<i>] is among the
    lines of [func_vars] exactly when the term is a list or its second entry
    is true; its declaration is among those that [func_header] puts after
    the channels exactly when the second entry is true. For a term that is
    not a list the two agree: declared if and only if assigned. *)
Theorem td_assigned_and_declared (op : OpSystem) (i : nat) (t : HamiltonianTerm) :
  system op !! i = Some t →
  ("td" +:+ str_of_nat i +:+ " = " +:+ str_of (term_1 t) ∈ func_vars (__init__ op) ↔
   isinstance_list (term_type t) || truthy (term_1 t) = true) ∧
  ("cdef double complex td" +:+ str_of_nat i
     ∈ drop (5 + length (channels op)) (func_header op) ↔
   truthy (term_1 t) = true) ∧
  (term_type t = PyTuple →
   ("cdef double complex td" +:+ str_of_nat i
      ∈ drop (5 + length (channels op)) (func_header op) ↔
    "td" +:+ str_of_nat i +:+ " = " +:+ str_of (term_1 t) ∈ func_vars (__init__ op))).
Proof.
  intros Ht.
  assert ("td" +:+ str_of_nat i +:+ " = " +:+ str_of (term_1 t) ∈ func_vars (__init__ op) ↔
          guarded t = true) as Hassign.
  { rewrite func_vars_eq. cbn [op_system __init__]. split.
    - intros Hin. apply elem_of_cons in Hin as [H|Hin]; [first_char_clash H|].
      apply elem_of_concat_imap in Hin as (j & t' & Ht' & Hin).
      unfold term_lines in Hin. destruct (guarded t') eqn:Hg.
      + apply elem_of_cons in Hin as [H|Hin].
        * apply (inj (String.app "td")) in H.
          apply (digits_app_inj _ _ " " " " _ _
                   (str_of_nat_digits i) (str_of_nat_digits j) eq_refl eq_refl) in H.
          apply str_of_nat_inj in H as ->. congruence.
        * apply elem_of_cons in Hin as [H|Hin]; [first_char_clash H|].
          apply list_elem_of_singleton in Hin. first_char_clash Hin.
      + apply list_elem_of_singleton in Hin. first_char_clash Hin.
    - intros Hg. apply elem_of_cons. right. apply elem_of_concat_imap.
      exists i, t. split; [done|]. unfold term_lines. rewrite Hg. apply list_elem_of_here. }
  assert ("cdef double complex td" +:+ str_of_nat i
            ∈ drop (5 + length (channels op)) (func_header op) ↔
          declared t = true) as Hdecl.
  { rewrite func_header_eq, (assoc_L (++)).
    rewrite drop_app_length' by (rewrite length_app, !length_fmap; done).
    split.
    - intros Hin. apply elem_of_concat_imap in Hin as (j & t' & Ht' & Hin).
      destruct (declared t') eqn:Hd; [|by apply elem_of_nil in Hin].
      apply list_elem_of_singleton in Hin.
      apply (inj (String.app "cdef double complex td")), str_of_nat_inj in Hin as ->.
      congruence.
    - intros Hd. apply elem_of_concat_imap. exists i, t. split; [done|].
      rewrite Hd. apply list_elem_of_here. }
  split; [exact Hassign|]. split; [exact Hdecl|].
  intros Htuple. rewrite Hassign, Hdecl. by rewrite tuple_guarded.
Qed.

Lemma data_in_signature (op : OpSystem) (i : nat) :
  "complex[::1] data" +:+ str_of_nat i ∈ signature op ↔ i < length (system op).
Proof.
  unfold signature. split.
  + intros Hin. rewrite !elem_of_app in Hin.
    destruct Hin as [Hin|[Hin|[Hin|[Hin|[Hin|Hin]]]]].
    * apply elem_of_cons in Hin as [H|Hin]; [first_char_clash H|].
      apply list_elem_of_singleton in Hin. nth_char_clash Hin 13.
    * apply list_elem_of_bind in Hin as (k & Hin & Hk).
      apply elem_of_seq in Hk.
      apply elem_of_cons in Hin as [H|Hin].
      { apply (inj (String.app "complex[::1] data")), str_of_nat_inj in H. lia. }
      apply elem_of_cons in Hin as [H|Hin]; [first_char_clash H|].
      apply list_elem_of_singleton in Hin. first_char_clash Hin.
    * apply elem_of_cons in Hin as [H|Hin]; [nth_char_clash H 13|].
      apply list_elem_of_singleton in Hin. first_char_clash Hin.
    * apply list_elem_of_bind in Hin as (k & Hin & Hk).
      apply elem_of_cons in Hin as [H|Hin]; [first_char_clash H|].
      apply list_elem_of_singleton in Hin. first_char_clash Hin.
    * apply list_elem_of_fmap in Hin as (v & H & _). nth_char_clash H 7.
    * apply list_elem_of_singleton in Hin. first_char_clash Hin.
  + intros Hi. rewrite !elem_of_app. right. left.
    apply list_elem_of_bind. exists i. split; [apply list_elem_of_here|].
    apply elem_of_seq. lia.
Qed.

Lemma header_read_back (op : OpSystem) :
  Forall (λ key, identifier key = true) ((channels op).*1 ++ vars op) →
  def_args <$> ODE_func_header (__init__ op) = [ signature op ].
Proof.
  intros Hnames. rewrite ODE_func_header_eq, <-args_layout_signature.
  pose proof (args_layout_readable op Hnames) as Hr.
  unfold args_layout in *. cbn [app] in *. cbn [fmap list_fmap].
  f_equal. by apply def_args_layout.
Qed.

(** X9. When the channel and variable names are identifiers, the argument
    list read back from the emitted header at its commas declares the array
    [data<i>] exactly for the indices below the number of terms, and these
    are exactly the indices for which the body holds an accumulation call:
    every array a call takes the address of is an argument of the kernel,
    and no array is declared without being used. *)
Theorem csr_arrays_declared_iff_used (op : OpSystem) (i : nat) :
  Forall (λ key, identifier key = true) ((channels op).*1 ++ vars op) →
  ((∃ line, line ∈ ODE_func_header (__init__ op) ∧
            "complex[::1] data" +:+ str_of_nat i ∈ def_args line) ↔
   i < length (system op)) ∧
  ((∃ c, spmv_call i c ∈ func_vars (__init__ op) ∨
         "    " +:+ spmv_call i c ∈ func_vars (__init__ op)) ↔
   i < length (system op)).
Proof.
  intros Hnames. split.
  - rewrite <-data_in_signature.
    pose proof (header_read_back op Hnames) as Hback.
    destruct (ODE_func_header (__init__ op)) as [|h [|h' t]]; try discriminate Hback.
    injection Hback as Hback. split.
    + intros (line & ->%list_elem_of_singleton & Hin). by rewrite <-Hback.
    + intros Hin. exists h. split; [apply list_elem_of_here|]. by rewrite Hback.
  - split.
    + intros [c Hin]. rewrite func_vars_eq in Hin. cbn [op_system __init__] in Hin.
      destruct Hin as [Hin|Hin];
        (apply elem_of_cons in Hin as [H|Hin]; [first_char_clash H|]);
        apply elem_of_concat_imap in Hin as (j & t & Ht & Hin).
      * apply plain_call_in_term_lines in Hin as [-> _]. by apply lookup_lt_Some in Ht.
      * apply guarded_call_in_term_lines in Hin as [-> _]. by apply lookup_lt_Some in Ht.
    + intros Hi. apply lookup_lt_is_Some_2 in Hi as [t Ht].
      destruct (func_vars_accum op i t Ht) as (a & b & Hfv).
      assert (accum_stmt i t ∈ func_vars (__init__ op)) as Hin.
      { rewrite Hfv. rewrite !elem_of_app. right. left. apply list_elem_of_here. }
      unfold accum_stmt in Hin. destruct (guarded t); eauto.
Qed.

(** ** The path of the Cython sources *)

Lemma replace_backslash_free (s : string) :
  str_forallb (λ a, negb (Ascii.eqb a backslash_char)) (replace_go backslash "/" 0 s) = true.
Proof.
  unfold backslash. induction s as [|c r IH]; [done|].
  cbn [replace_go String.prefix String.length Nat.sub].
  destruct (ascii_dec backslash_char c) as [<-|Hc].
  - destruct r; cbn [String.prefix]; exact IH.
  - cbn [str_forallb]. rewrite IH, andb_true_r. apply negb_true_iff.
    apply Ascii.eqb_neq. congruence.
Qed.

Lemma replace_backslash_id (s : string) :
  str_forallb (λ a, negb (Ascii.eqb a backslash_char)) s = true → replace_go backslash "/" 0 s = s.
Proof.
  unfold backslash. induction s as [|c r IH]; [done|]. cbn [str_forallb].
  intros [Hc Hr]%andb_prop. apply negb_true_iff, Ascii.eqb_neq in Hc.
  cbn [replace_go String.prefix].
  destruct (ascii_dec backslash_char c) as [<-|_]; [done|]. by rewrite IH.
Qed.

Lemma replace_init_suffix (d : string) :
  str_forallb (λ a, negb (Ascii.eqb a "_")) d = true →
  replace_go "__init__.py" "" 0 (d +:+ "__init__.py") = d.
Proof.
  induction d as [|c r IH]; [done|]. cbn [str_forallb].
  intros [Hc Hr]%andb_prop. apply negb_true_iff, Ascii.eqb_neq in Hc.
  change (String c r +:+ "__init__.py") with (String c (r +:+ "__init__.py")).
  cbn [replace_go String.prefix].
  destruct (ascii_dec "_" c) as [<-|_]; [done|]. by rewrite IH.
Qed.

(** X10. Whatever the location of the QuTiP sources, the path computed for
    the include directive holds no backslash. *)
Theorem cython_path_has_no_backslash (abspath_file : string) :
  str_forallb (λ a, negb (Ascii.eqb a backslash_char)) (cython_path_of abspath_file) = true.
Proof. apply replace_backslash_free. Qed.

(** X11. When the package file is [__init__.py] in a directory whose path
    holds no underscore, the computed path is that of the directory with
    every backslash turned into a slash; it is the directory path itself
    when this holds no backslash. *)
Theorem cython_path_of_package_file (dir : string) :
  str_forallb (λ a, negb (Ascii.eqb a "_")) dir = true →
  cython_path_of (dir +:+ "__init__.py") = str_replace dir backslash "/" ∧
  (str_forallb (λ a, negb (Ascii.eqb a backslash_char)) dir = true →
   cython_path_of (dir +:+ "__init__.py") = dir).
Proof.
  intros Hdir. unfold cython_path_of, str_replace.
  rewrite replace_init_suffix by done. split; [done|].
  apply replace_backslash_id.
Qed.

(** ** The build script *)

Lemma py_int_acc_string_of_uint (d : Decimal.uint) (acc : nat) :
  py_int_acc (NilEmpty.string_of_uint d) acc = Some (Nat.of_uint_acc d acc).
Proof.
  revert acc.
  induction d as [|d IH|d IH|d IH|d IH|d IH|d IH|d IH|d IH|d IH|d IH]; intros acc;
    [done|..];
    cbn [NilEmpty.string_of_uint py_int_acc Ascii.is_nat Nat.of_uint_acc];
    rewrite IH, Nat.tail_mul_spec; do 2 f_equal; cbn; lia.
Qed.

Lemma py_int_acc_app (s1 s2 : string) (acc : nat) :
  py_int_acc (s1 +:+ s2) acc = py_int_acc s1 acc ≫= py_int_acc s2.
Proof.
  revert acc. induction s1 as [|a s1 IH]; intros acc; [done|].
  change (String a s1 +:+ s2) with (String a (s1 +:+ s2)).
  cbn [py_int_acc]. destruct (Ascii.is_nat a); [apply IH|done].
Qed.

Lemma of_uint_acc_split (d : Decimal.uint) (acc : nat) :
  Nat.of_uint_acc d acc = Nat.of_uint d + acc * 10 ^ Unsigned.usize d.
Proof.
  unfold Nat.of_uint. rewrite (Unsigned.of_uint_acc_spec acc d).
  rewrite (Unsigned.of_uint_acc_spec 0 d). lia.
Qed.

Lemma str_of_nat_nonempty (n : nat) : str_of_nat n ≠ "".
Proof.
  unfold str_of_nat. destruct (Nat.to_uint n) eqn:Hd; try done.
  pose proof (f_equal Nat.of_uint Hd) as Hn. rewrite Unsigned.of_to in Hn.
  rewrite Hn in Hd. discriminate Hd.
Qed.

(** The number the version test compares with 35: the minor version, with
    the major version written in front of its digits. *)
Lemma py_int_version (major minor : nat) :
  py_int (str_of_nat major +:+ str_of_nat minor) =
  Some (minor + major * 10 ^ Unsigned.usize (Nat.to_uint minor)).
Proof.
  assert (py_int (str_of_nat major +:+ str_of_nat minor) =
          py_int_acc (str_of_nat major +:+ str_of_nat minor) 0) as ->.
  { pose proof (str_of_nat_nonempty major) as Hne.
    by destruct (str_of_nat major). }
  rewrite py_int_acc_app. unfold str_of_nat.
  rewrite py_int_acc_string_of_uint. cbn [mbind option_bind].
  rewrite py_int_acc_string_of_uint, of_uint_acc_split.
  change (Nat.of_uint_acc (Nat.to_uint major) 0) with (Nat.of_uint (Nat.to_uint major)).
  by rewrite !Unsigned.of_to.
Qed.

Lemma usize_pos (n : nat) : 0 < Unsigned.usize (Nat.to_uint n).
Proof.
  pose proof (str_of_nat_nonempty n) as Hne. unfold str_of_nat in Hne.
  destruct (Nat.to_uint n); cbn; [done|lia..].
Qed.

Lemma visual_studio_compile_eq (env : build_env) :
  visual_studio_compile env =
  Some (String.eqb (sys_platform env) "win32" &&
        (35 <=? (sys_version_info env).2 +
                (sys_version_info env).1 *
                10 ^ Unsigned.usize (Nat.to_uint (sys_version_info env).2)) &&
        bool_decide (environ_MSYSTEM env = None)).
Proof.
  unfold visual_studio_compile. destruct (String.eqb _ _); [|done].
  by rewrite py_int_version.
Qed.

(** X12. On Windows the version test of the build script, which compares
    with 35 the number read from the major and minor version written one
    after the other, holds for Python 3 exactly from minor version 5 on,
    holds for every later major version, and fails for the major versions
    up to 2 with a minor version of one digit; the first branch is then
    taken when, besides, [MSYSTEM] is not set. *)
Theorem visual_studio_version_test (env : build_env) :
  sys_platform env = "win32" →
  ((sys_version_info env).1 = 3 →
   visual_studio_compile env =
   Some (bool_decide (5 ≤ (sys_version_info env).2) &&
         bool_decide (environ_MSYSTEM env = None))) ∧
  (4 ≤ (sys_version_info env).1 →
   visual_studio_compile env = Some (bool_decide (environ_MSYSTEM env = None))) ∧
  ((sys_version_info env).1 ≤ 2 → (sys_version_info env).2 ≤ 9 →
   visual_studio_compile env = Some false).
Proof.
  intros Hwin. rewrite visual_studio_compile_eq, Hwin.
  destruct (sys_version_info env) as [major minor]. cbn [fst snd andb String.eqb].
  change (String.eqb "win32" "win32") with true. cbn [andb].
  pose proof (usize_pos minor) as Hu.
  assert (10 ≤ 10 ^ Unsigned.usize (Nat.to_uint minor)) as H10.
  { change 10 with (10 ^ 1) at 1. apply Nat.pow_le_mono_r; lia. }
  split; [|split].
  - intros ->. do 2 f_equal.
    destruct (decide (5 ≤ minor)) as [H5|H5].
    + rewrite bool_decide_eq_true_2 by done. apply Nat.leb_le. lia.
    + rewrite bool_decide_eq_false_2 by done.
      do 5 (destruct minor as [|minor]; [reflexivity|]). lia.
  - intros H4. do 2 f_equal.
    replace (35 <=? _) with true; [done|]. symmetry. apply Nat.leb_le. nia.
  - intros H2 H9. do 2 f_equal.
    assert (Unsigned.usize (Nat.to_uint minor) = 1) as ->.
    { do 10 (destruct minor as [|minor]; [reflexivity|]). lia. }
    replace (35 <=? _) with false; [done|]. symmetry. apply Nat.leb_gt.
    change (10 ^ 1) with 10. lia.
Qed.

Lemma build_flags_cases (env : build_env) :
  ∃ vs, visual_studio_compile env = Some vs ∧
        (vs = true → sys_platform env = "win32") ∧
        build_flags env =
        Some (if vs then ([], [])
              else if String.eqb (sys_platform env) "darwin"
                   then ([ "-O2"; "-funroll-loops"; "-mmacosx-version-min=10.9" ],
                         [ "-mmacosx-version-min=10.9" ])
                   else ([ "-O2"; "-funroll-loops" ], [])).
Proof.
  unfold build_flags. rewrite visual_studio_compile_eq. eexists. split; [done|].
  split.
  - intros [[Hw _]%andb_prop _]%andb_prop. by apply String.eqb_eq.
  - cbn [mbind option_bind]. destruct (_ && _ && _); [done|].
    by destruct (String.eqb (sys_platform env) "darwin").
Qed.

(** X13. In every environment the script arrives at its flags without an
    error. Link flags are passed exactly on [darwin]; every link flag is
    also a compile flag; the compile flags are empty exactly in the Visual
    Studio branch and hold [-O2] otherwise. *)
Theorem build_flags_by_platform (env : build_env) :
  ∃ cflags lflags,
    build_flags env = Some (cflags, lflags) ∧
    (lflags ≠ [] ↔ sys_platform env = "darwin") ∧
    (∀ flag, flag ∈ lflags → flag ∈ cflags) ∧
    (cflags = [] ↔ visual_studio_compile env = Some true) ∧
    (cflags ≠ [] → "-O2" ∈ cflags).
Proof.
  destruct (build_flags_cases env) as (vs & Hvs & Hwin & ->). rewrite Hvs.
  destruct vs.
  - exists [], []. split; [done|]. split; [|done].
    split; [done|]. intros Hd. rewrite Hwin in Hd by done. discriminate Hd.
  - destruct (String.eqb (sys_platform env) "darwin") eqn:Hd.
    + apply String.eqb_eq in Hd. eexists _, _. split; [done|].
      split; [done|]. split; [|split; [done|]].
      * intros flag ->%list_elem_of_singleton. do 2 right. left.
      * intros _. left.
    + apply String.eqb_neq in Hd. eexists _, _. split; [done|].
      split; [done|]. split; [|split; [done|]].
      * by intros flag ?%elem_of_nil.
      * intros _. left.
Qed.

(** X14. In every environment the script builds eleven extensions with
    pairwise different names; each is compiled as C++ with the include
    directory of NumPy and with the compile and link flags selected for the
    platform, from the one source file whose path is the extension's name
    with the dots turned into slashes, followed by [.pyx]. *)
Theorem extension_modules (env : build_env) :
  ∃ flags exts,
    build_flags env = Some flags ∧
    EXT_MODULES env = Some exts ∧
    length exts = 11 ∧
    NoDup (ext_name <$> exts) ∧
    Forall (λ e,
      extra_compile_args e = flags.1 ∧
      extra_link_args e = flags.2 ∧
      include_dirs e = [ np_get_include env ] ∧
      language e = "c++" ∧
      sources e = [ str_replace (ext_name e) "." "/" +:+ ".pyx" ]) exts.
Proof.
  destruct (build_flags_cases env) as (vs & _ & _ & Hflags).
  unfold EXT_MODULES. rewrite Hflags. eexists _, _. split; [done|].
  cbn [mbind option_bind fold_left cython_op_exts cython_qutip_exts app].
  split; [reflexivity|]. split; [reflexivity|]. split.
  - cbn [fmap list_fmap ext_name]. apply (bool_decide_unpack _). by vm_compute.
  - repeat (apply Forall_cons_2; [by repeat split|]). apply Forall_nil_2.
Qed.

End codegen.

(** ** The properties at the test models *)

Ltac pick_line :=
  apply list_elem_of_In; vm_compute; repeat (first [left; reflexivity | right]).

Lemma level_never_negative_witness :
  level (self (new no_terms empty_process)) = 0%Z ∧
  dedent (new no_terms empty_process) =
  (Raise (SyntaxError "Error in code generator"), new no_terms empty_process).
Proof.
  split; [reflexivity|].
  apply (proj1 (proj2 (level_never_negative site_cython_path))). reflexivity.
Defined.

Lemma time_dependent_term_guarded_witness :
  truthy (PyStr "omega*D0") = true ∧
  ∃ pre post,
    func_vars (__init__ driven_qubit) =
      pre ++
      [ "td" +:+ str_of_nat 0 +:+ " = " +:+ "omega*D0";
        "if abs(td" +:+ str_of_nat 0 +:+ ") > 1e-15:";
        "    " +:+ spmv_call 0 ("td" +:+ str_of_nat 0) ] ++ post ∧
    (∀ c, "    " +:+ spmv_call 0 c ∉ pre ++ post) ∧
    (∀ c, spmv_call 0 c ∉ func_vars (__init__ driven_qubit)) ∧
    (∀ l, head post = Some l → starts_with_blank l = false).
Proof.
  split; [reflexivity|].
  apply (time_dependent_term_guarded driven_qubit 0
           {| term_type := PyTuple; term_1 := PyStr "omega*D0" |}); reflexivity.
Defined.

Lemma constant_tuple_term_unguarded_witness :
  system driven_qubit !! 1 = Some {| term_type := PyTuple; term_1 := PyNone |} ∧
  ∃ pre post,
    func_vars (__init__ driven_qubit) = pre ++ [spmv_call 1 "1.0"] ++ post ∧
    (∀ c, spmv_call 1 c ∉ pre ++ post) ∧
    (∀ c, "    " +:+ spmv_call 1 c ∉ func_vars (__init__ driven_qubit)).
Proof.
  split; [reflexivity|].
  apply (proj1 (constant_tuple_term_unguarded driven_qubit) 1
           {| term_type := PyTuple; term_1 := PyNone |}); reflexivity.
Defined.

Lemma channels_before_accumulation_witness :
  channels driven_qubit !! 1 = Some ("U0", 1%Z) ∧
  ∃ a b c,
    code (self (generate site_cython_path None (new driven_qubit empty_process)).2) =
    a ++ [written 1 (channel_stmt ("U0", 1%Z))] ++ b ++
    [written 1 (accum_stmt 0 {| term_type := PyTuple; term_1 := PyStr "omega*D0" |})] ++ c.
Proof.
  split; [reflexivity|].
  apply (proj2 (proj2 (channels_before_accumulation site_cython_path driven_qubit None
                         empty_process)) 1 ("U0", 1%Z) 0
           {| term_type := PyTuple; term_1 := PyStr "omega*D0" |}); reflexivity.
Defined.

Lemma no_terms_kernel_witness :
  system no_terms = [] ∧
  open_error empty_process "zero.pyx" = None ∧
  (generate site_cython_path (Some "zero.pyx") (new no_terms empty_process)).1 = Return () ∧
  func_vars (__init__ no_terms) ++ func_end (__init__ no_terms) =
    [ "# Eval the time-dependent terms and do SPMV.";
      "";
      "# Convert to NumPy array, grab ownership, and return.";
      "cdef np.npy_intp dims = num_rows";
      "cdef np.ndarray[complex, ndim=1, mode='c'] arr_out = np.PyArray_SimpleNewFromData(1, &dims, np.NPY_COMPLEX128, out)";
      "PyArray_ENABLEFLAGS(arr_out, np.NPY_OWNDATA)";
      "return arr_out" ].
Proof.
  split; [reflexivity|]. split; [reflexivity|].
  pose proof (no_terms_kernel site_cython_path no_terms (Some "zero.pyx") empty_process
                eq_refl eq_refl) as (Hr & _ & _ & Hbody & _).
  exact (conj Hr Hbody).
Defined.


Lemma generate_accepts_any_names_witness :
  let r := generate site_cython_path None (new channel_named_vec empty_process) in
  let r' := generate site_cython_path (Some "") (new channel_named_vec empty_process) in
  open_error empty_process "rhs.pyx" = None ∧
  open_error empty_process "" = Some (OSError "") ∧
  ("vec", 0%Z) ∈ channels channel_named_vec ∧
  r.1 = Return () ∧
  r'.1 = Raise (OSError "") ∧
  proc r'.2 = empty_process ∧
  written 1 ("cdef double complex " +:+ "vec") ∈ code (self r.2) ∧
  (nl8, "complex " +:+ "vec") ∈ args_layout channel_named_vec.
Proof.
  pose proof (generate_accepts_any_names site_cython_path channel_named_vec None
                empty_process) as (Hr & _ & _ & Hch & Hv).
  pose proof (generate_accepts_any_names site_cython_path channel_named_vec (Some "")
                empty_process) as (_ & Hr' & _).
  assert (("vec", 0%Z) ∈ channels channel_named_vec) as Hin by apply list_elem_of_here.
  assert ("vec" ∈ vars channel_named_vec) as Hin' by apply list_elem_of_here.
  destruct (Hr' (OSError "") eq_refl) as [Hraise Hproc].
  exact (conj eq_refl (conj eq_refl (conj Hin (conj (proj1 (Hr eq_refl))
           (conj Hraise (conj Hproc (conj (proj1 (Hch "vec" 0%Z Hin)) (Hv "vec" Hin')))))))).
Defined.

Lemma generate_twice_accumulates_witness :
  let r1 := generate site_cython_path None (new driven_qubit empty_process) in
  let r2 := generate site_cython_path (Some "again.pyx") r1.2 in
  open_error empty_process "rhs.pyx" = None ∧
  open_error empty_process "again.pyx" = None ∧
  fs (proc r2.2) !! "again.pyx" =
    Some (artifact site_cython_path driven_qubit +:+ artifact site_cython_path driven_qubit) ∧
  length (List.filter is_kernel_def (code (self r2.2))) = 2.
Proof.
  pose proof (generate_twice_accumulates site_cython_path driven_qubit None
                (Some "again.pyx") empty_process eq_refl eq_refl)
    as (_ & _ & _ & _ & _ & Hfile & _ & Hdefs).
  exact (conj eq_refl (conj eq_refl (conj Hfile Hdefs))).
Defined.

Lemma header_argument_contract_witness :
  Forall (λ key, identifier key = true)
    ((channels driven_qubit).*1 ++ vars driven_qubit) ∧
  def_args <$> ODE_func_header (__init__ driven_qubit) =
  [ [ "double t"; "complex[::1] vec";
      "complex[::1] data0"; "int[::1] idx0"; "int[::1] ptr0";
      "complex[::1] data1"; "int[::1] idx1"; "int[::1] ptr1";
      "complex[::1] pulse_array"; "unsigned int[::1] pulse_indices";
      "double[::1] D0_pulses"; "double[::1] D0_fc";
      "double[::1] U0_pulses"; "double[::1] U0_fc";
      "complex omega";
      "unsigned char[::1] register" ] ].
Proof.
  assert (Forall (λ key, identifier key = true)
            ((channels driven_qubit).*1 ++ vars driven_qubit)) as Hid.
  { repeat (apply Forall_cons_2; [reflexivity|]). apply Forall_nil_2. }
  split; [exact Hid|].
  exact (proj2 (proj2 (proj2 (header_argument_contract driven_qubit))) Hid).
Defined.

(** ** Where the code departs from the description *)


(** A channel called [vec], and a free variable of the same name: the
    generation returns normally and the file is written, with [vec] declared
    as a local, assigned a channel value, and listed twice more among the
    arguments of the header. *)
Lemma channel_named_vec_is_generated :
  let r := generate site_cython_path None (new channel_named_vec empty_process) in
  r.1 = Return () ∧
  fs (proc r.2) !! "rhs.pyx" = Some (join_lines (code (self r.2))) ∧
  "    cdef double complex vec" +:+ nl ∈ code (self r.2) ∧
  "    vec = channel_value(t, 0, vec_pulses,  pulse_array, pulse_indices, vec_fc, register)"
    +:+ nl ∈ code (self r.2) ∧
  def_args <$> ODE_func_header (__init__ channel_named_vec) =
  [ [ "double t"; "complex[::1] vec";
      "complex[::1] data0"; "int[::1] idx0"; "int[::1] ptr0";
      "complex[::1] pulse_array"; "unsigned int[::1] pulse_indices";
      "double[::1] vec_pulses"; "double[::1] vec_fc";
      "complex vec";
      "unsigned char[::1] register" ] ].
Proof.
  cbn zeta. rewrite generate_new by reflexivity.
  cbn [fst snd self proc fs code set_file set_code default empty_process].
  rewrite lookup_insert_eq.
  split; [reflexivity|]. split; [reflexivity|]. split; [pick_line|].
  split; [pick_line|]. vm_compute. reflexivity.
Qed.

(** A term given as the list [[op, None]] has no time dependence, yet
    [func_vars] assigns [None] to [td0] and puts the accumulation under the
    test; the call with coefficient 1.0 is not emitted. *)
Lemma list_term_without_tag_is_guarded :
  system list_term_without_tag !! 0 = Some {| term_type := PyList; term_1 := PyNone |} ∧
  func_vars (__init__ list_term_without_tag) =
    [ "# Eval the time-dependent terms and do SPMV.";
      "td0 = None";
      "if abs(td0) > 1e-15:";
      "    spmvpy(&data0[0], &idx0[0], &ptr0[0], &vec[0], td0, &out[0], num_rows)" ] ∧
  "spmvpy(&data0[0], &idx0[0], &ptr0[0], &vec[0], 1.0, &out[0], num_rows)"
    ∉ func_vars (__init__ list_term_without_tag).
Proof.
  split; [reflexivity|]. split; [reflexivity|].
  intros Hin%list_elem_of_In. vm_compute in Hin.
  repeat destruct Hin as [Hin|Hin]; [discriminate Hin..|done].
Qed.

(** C5, at the input where it fails. For the term list [[[op, None]]] the
    body assigns [td0] and tests it, while the declarations emitted by
    [func_header] stop at the blank line after [out]: no
    [cdef double complex td0]. *)
Theorem list_term_assigned_but_not_declared :
  func_vars (__init__ list_term_without_tag) =
    [ "# Eval the time-dependent terms and do SPMV.";
      "td0 = None";
      "if abs(td0) > 1e-15:";
      "    spmvpy(&data0[0], &idx0[0], &ptr0[0], &vec[0], td0, &out[0], num_rows)" ] ∧
  func_header list_term_without_tag =
    [ "";
      "cdef size_t row";
      "cdef unsigned int num_rows = vec.shape[0]";
      "cdef double complex * out = <complex *>PyDataMem_NEW_ZEROED(num_rows,sizeof(complex))";
      "" ] ∧
  guarded {| term_type := PyList; term_1 := PyNone |} = true ∧
  declared {| term_type := PyList; term_1 := PyNone |} = false.
Proof. repeat split. Qed.

(** ** Further properties at the test models *)


Lemma generate_raises_iff_witness :
  let c := set_level (__init__ driven_qubit) (-1) in
  let r := generate site_cython_path None {| self := c; proc := empty_process |} in
  let c' := __init__ driven_qubit in
  let r' := generate site_cython_path (Some "out/rhs.pyx")
              {| self := c'; proc := empty_process |} in
  level c = (-1)%Z ∧
  r.1 = Raise (SyntaxError "Error in code generator") ∧
  proc r.2 = empty_process ∧
  level c' ≠ (-1)%Z ∧
  open_error empty_process "out/rhs.pyx" = Some (OSError "out/rhs.pyx") ∧
  r'.1 = Raise (OSError "out/rhs.pyx") ∧
  proc r'.2 = empty_process ∧
  code (self r'.2) = emitted site_cython_path c'.
Proof.
  cbn zeta.
  destruct (proj1 (proj2 (generate_raises_iff site_cython_path None
                            (set_level (__init__ driven_qubit) (-1)) empty_process)) eq_refl)
    as (Hr & Hp & _).
  assert (level (__init__ driven_qubit) ≠ (-1)%Z) as Hc by (cbn; lia).
  destruct (proj2 (proj2 (generate_raises_iff site_cython_path (Some "out/rhs.pyx")
                            (__init__ driven_qubit) empty_process)) Hc
              (OSError "out/rhs.pyx") eq_refl)
    as (Hr' & Hp' & _ & Hcode' & _).
  exact (conj eq_refl (conj Hr (conj Hp (conj Hc (conj eq_refl
           (conj Hr' (conj Hp' Hcode'))))))).
Defined.

Lemma csr_arrays_declared_iff_used_witness :
  Forall (λ key, identifier key = true)
    ((channels driven_qubit).*1 ++ vars driven_qubit) ∧
  1 < length (system driven_qubit) ∧
  (∃ line, line ∈ ODE_func_header (__init__ driven_qubit) ∧
           "complex[::1] data" +:+ str_of_nat 1 ∈ def_args line) ∧
  (∃ c, spmv_call 1 c ∈ func_vars (__init__ driven_qubit) ∨
        "    " +:+ spmv_call 1 c ∈ func_vars (__init__ driven_qubit)).
Proof.
  assert (Forall (λ key, identifier key = true)
            ((channels driven_qubit).*1 ++ vars driven_qubit)) as Hid.
  { repeat (apply Forall_cons_2; [reflexivity|]). apply Forall_nil_2. }
  assert (1 < length (system driven_qubit)) as Hlt by (cbn; lia).
  destruct (csr_arrays_declared_iff_used driven_qubit 1 Hid) as [Hdecl Hused].
  exact (conj Hid (conj Hlt (conj (proj2 Hdecl Hlt) (proj2 Hused Hlt)))).
Defined.

Lemma balanced_indentation_witness :
  (0 ≤ level (self (new no_terms empty_process)))%Z ∧
  run site_cython_path (replicate 3 Indent ++ replicate 3 Dedent)
      (new no_terms empty_process) = new no_terms empty_process.
Proof.
  assert (0 ≤ level (self (new no_terms empty_process)))%Z as H0 by (cbn; lia).
  exact (conj H0 (proj1 (balanced_indentation site_cython_path 3 _ H0))).
Defined.

Lemma td_assigned_and_declared_witness :
  system driven_qubit !! 0 = Some {| term_type := PyTuple; term_1 := PyStr "omega*D0" |} ∧
  ("cdef double complex td" +:+ str_of_nat 0
     ∈ drop (5 + length (channels driven_qubit)) (func_header driven_qubit) ↔
   "td" +:+ str_of_nat 0 +:+ " = " +:+ "omega*D0" ∈ func_vars (__init__ driven_qubit)).
Proof.
  split; [reflexivity|].
  exact (proj2 (proj2 (td_assigned_and_declared driven_qubit 0
                         {| term_type := PyTuple; term_1 := PyStr "omega*D0" |} eq_refl))
           eq_refl).
Defined.

Lemma cython_path_of_package_file_witness :
  str_forallb (λ a, negb (Ascii.eqb a "_")) site_cython_path = true ∧
  cython_path_of (site_cython_path +:+ "__init__.py") = site_cython_path.
Proof.
  split; [reflexivity|].
  exact (proj2 (cython_path_of_package_file site_cython_path eq_refl) eq_refl).
Defined.

Lemma visual_studio_version_test_witness :
  let env := {| sys_platform := "win32"; sys_version_info := (3, 10);
                environ_MSYSTEM := None; np_get_include := "numpy/core/include" |} in
  sys_platform env = "win32" ∧
  visual_studio_compile env =
  Some (bool_decide (5 ≤ 10) && bool_decide (@None string = None)).
Proof.
  cbn zeta. split; [reflexivity|].
  exact (proj1 (visual_studio_version_test
                  {| sys_platform := "win32"; sys_version_info := (3, 10);
                     environ_MSYSTEM := None; np_get_include := "numpy/core/include" |}
                  eq_refl) eq_refl).
Defined.
